(** * monosi: the table-metrics compiler

    A shallow embedding of [monosi/monitors/table_metrics.py]: the metric
    catalogue ([MetricType]), the SQL templates and the alias codec of
    [Metric], and the build / interpret cycle of [MetricCompiler].

    Conventions of the embedding.
    - A Python [str] is a [string]; [str.lower] acts on the ASCII letters
      (column names and aliases are SQL identifiers).
    - A Python exception is a constructor of [exn]; a computation that may
      raise returns a [result].
    - The [Metric] objects of one compiler live in a store (a list); an
      object is identified by its position in the store, so that the
      [metric_map] of [MetricCompiler] holds references, as in Python. *)

From Stdlib Require Import ZArith String Ascii Bool Lia Permutation.
From stdpp Require Import base list strings.

Local Open Scope string_scope.
Local Open Scope list_scope.

#[local] Arguments String.append !_ _ / : simpl nomatch.

(** ** Exceptions and results *)

Inductive exn : Type :=
  | TypeError
  | ValueError
  | OverflowError
  | IndexError
  | KeyError (key : string)
  | Exception (msg : string).

Inductive result (A : Type) : Type :=
  | Ok (a : A)
  | Raise (e : exn).

Arguments Ok {A} a.
Arguments Raise {A} e.

Global Instance result_ret : MRet result := fun A a => Ok a.

Global Instance result_bind : MBind result := fun A B k r =>
  match r with
  | Ok a => k a
  | Raise e => Raise e
  end.

Definition returns {A : Type} (r : result A) : bool :=
  match r with Ok _ => true | Raise _ => false end.

(** A [for] loop whose body may raise: the state is threaded through the
    items, and the first exception ends the loop. *)
Fixpoint for_each {S X : Type} (body : S -> X -> result S) (items : list X) (s : S)
  : result S :=
  match items with
  | [] => Ok s
  | x :: rest => s' ← body s x; for_each body rest s'
  end.

(** ** Strings: the [str] methods the module uses *)

Module Str.

Definition lower_char (c : ascii) : ascii :=
  let n := nat_of_ascii c in
  if (65 <=? n)%nat && (n <=? 90)%nat then ascii_of_nat (n + 32) else c.

(** [s.lower()] *)
Fixpoint lower (s : string) : string :=
  match s with
  | EmptyString => EmptyString
  | String c s' => String (lower_char c) (lower s')
  end.

(** [s.startswith(p)] *)
Fixpoint startswith (p s : string) : bool :=
  match p, s with
  | EmptyString, _ => true
  | String _ _, EmptyString => false
  | String a p', String b s' => Ascii.eqb a b && startswith p' s'
  end.

(** [sub in s] *)
Fixpoint contains (sub s : string) : bool :=
  match s with
  | EmptyString => startswith sub EmptyString
  | String _ s' => startswith sub s || contains sub s'
  end.

(** [s.endswith(String c "")] *)
Fixpoint ends_with_char (c : ascii) (s : string) : bool :=
  match s with
  | EmptyString => false
  | String a EmptyString => Ascii.eqb a c
  | String _ s' => ends_with_char c s'
  end.

(** [s.split(sep)] for a non-empty [sep]: the occurrences of [sep] are
    found from the left and do not overlap. [skip] counts the characters
    of an occurrence still to be passed over, [cur] is the part being
    read. *)
Fixpoint split_go (sep : string) (skip : nat) (cur s : string) : list string :=
  match s with
  | EmptyString => [cur]
  | String c s' =>
      match skip with
      | S n => split_go sep n cur s'
      | O =>
          if startswith sep s
          then cur :: split_go sep (String.length sep - 1) EmptyString s'
          else split_go sep 0 (cur +:+ String c EmptyString) s'
      end
  end.

Definition split (s sep : string) : list string := split_go sep 0 EmptyString s.

(** [sep.join(parts)] *)
Fixpoint join (sep : string) (parts : list string) : string :=
  match parts with
  | [] => EmptyString
  | [p] => p
  | p :: rest => p +:+ sep +:+ join sep rest
  end.

(** [template.format] with positional and keyword arguments, for the fields the
    module uses: [{}] takes the next positional argument, [{name}] the
    keyword argument [name]; a doubled brace stands for one brace.
    [field] is [Some f] while the characters [f] of a field name have
    been read. *)
Fixpoint lookup_kw (name : string) (kwargs : list (string * string)) : result string :=
  match kwargs with
  | [] => Raise (KeyError name)
  | (k, v) :: rest => if String.eqb k name then Ok v else lookup_kw name rest
  end.

Definition field_value (f : string) (args : list string) (kwargs : list (string * string))
  : result (string * list string) :=
  match f with
  | EmptyString =>
      match args with
      | [] => Raise IndexError
      | a :: args' => Ok (a, args')
      end
  | _ => v ← lookup_kw f kwargs; Ok (v, args)
  end.

Fixpoint format_go (t : string) (field : option string)
    (args : list string) (kwargs : list (string * string)) : result string :=
  match t with
  | EmptyString =>
      match field with
      | None => Ok EmptyString
      | Some _ => Raise ValueError
      end
  | String c t' =>
      match field with
      | Some f =>
          if Ascii.eqb c "}"
          then '(v, args') ← field_value f args kwargs;
               r ← format_go t' None args' kwargs;
               Ok (v +:+ r)
          else format_go t' (Some (f +:+ String c EmptyString)) args kwargs
      | None =>
          if Ascii.eqb c "{" then
            match t' with
            | String "{" t'' =>
                r ← format_go t'' None args kwargs; Ok (String "{" r)
            | _ => format_go t' (Some EmptyString) args kwargs
            end
          else if Ascii.eqb c "}" then
            match t' with
            | String "}" t'' =>
                r ← format_go t'' None args kwargs; Ok (String "}" r)
            | _ => Raise ValueError
            end
          else r ← format_go t' None args kwargs; Ok (String c r)
      end
  end.

Definition format (t : string) (args : list string) (kwargs : list (string * string))
  : result string :=
  format_go t None args kwargs.

End Str.

(** ** The column descriptor *)

(** Modelled from the spec: the enumeration [ColumnDataType] of
    [monosi/drivers/column.py]. The module names its members [STRING] and
    [INTEGER]; the spec's third data category stands for every other
    member. *)
Inductive ColumnDataType : Type :=
  | STRING
  | INTEGER
  | OTHER.

Global Instance ColumnDataType_eq_dec : EqDecision ColumnDataType.
Proof. solve_decision. Defined.

(** Modelled from the spec: the column descriptor of
    [monosi/drivers/column.py], of which the module reads [name] and
    [data_type]. *)
Record Column : Type := mkColumn {
  name : string;
  data_type : ColumnDataType;
}.

(** ** MetricType *)

Inductive MetricType : Type :=
  | COMPLETENESS
  | APPROX_DISTINCT_COUNT
  | APPROX_DISTINCTNESS
  | MEAN_LENGTH
  | MAX_LENGTH
  | MIN_LENGTH
  | STD_LENGTH
  | TEXT_INT_RATE
  | TEXT_NUMBER_RATE
  | TEXT_UUID_RATE
  | TEXT_ALL_SPACES_RATE
  | TEXT_NULL_KEYWORD_RATE
  | ZERO_RATE
  | NEGATIVE_RATE
  | NUMERIC_MEAN
  | NUMERIC_MIN
  | NUMERIC_MAX
  | NUMERIC_STD.

Global Instance MetricType_eq_dec : EqDecision MetricType.
Proof. solve_decision. Defined.

(** [metric_type.value] *)
Definition value_of (k : MetricType) : string :=
  match k with
  | COMPLETENESS => "completeness"
  | APPROX_DISTINCT_COUNT => "approx_distinct_count"
  | APPROX_DISTINCTNESS => "approx_distinctness"
  | MEAN_LENGTH => "mean_length"
  | MAX_LENGTH => "max_length"
  | MIN_LENGTH => "min_length"
  | STD_LENGTH => "std_length"
  | TEXT_INT_RATE => "text_int_rate"
  | TEXT_NUMBER_RATE => "text_number_rate"
  | TEXT_UUID_RATE => "text_uuid_rate"
  | TEXT_ALL_SPACES_RATE => "text_all_spaces_rate"
  | TEXT_NULL_KEYWORD_RATE => "text_null_keyword_rate"
  | ZERO_RATE => "zero_rate"
  | NEGATIVE_RATE => "negative_rate"
  | NUMERIC_MEAN => "numeric_mean"
  | NUMERIC_MIN => "numeric_min"
  | NUMERIC_MAX => "numeric_max"
  | NUMERIC_STD => "numeric_std"
  end.

Definition _string_types : list MetricType :=
  [ COMPLETENESS;
    APPROX_DISTINCT_COUNT;
    APPROX_DISTINCTNESS;
    MEAN_LENGTH;
    MAX_LENGTH;
    MIN_LENGTH;
    STD_LENGTH;
    TEXT_INT_RATE;
    TEXT_NUMBER_RATE;
    TEXT_UUID_RATE;
    TEXT_ALL_SPACES_RATE;
    TEXT_NULL_KEYWORD_RATE ].

Definition _number_types : list MetricType :=
  [ COMPLETENESS;
    ZERO_RATE;
    NEGATIVE_RATE;
    APPROX_DISTINCTNESS;
    NUMERIC_MEAN;
    NUMERIC_MIN;
    NUMERIC_MAX;
    NUMERIC_STD ].

Definition default_for (column_data_type : ColumnDataType) : list MetricType :=
  if decide (column_data_type = STRING) then _string_types
  else if decide (column_data_type = INTEGER) then _number_types
  else [].

(** ** Python values and the built-in [float] *)

(** A float is kept as the decimal number its source denotes, [m * 10^e],
    or as one of the special values; rounding to binary64 is not modelled,
    and nothing below computes with floats. *)
Inductive pyfloat : Type :=
  | Finite (m e : Z)
  | Infinite (negative : bool)
  | NaN.

(** The values a result cell or a data point can hold. [VObj] is any other
    object, one that [float] does not accept (a date, a list, ...). *)
Inductive pyval : Type :=
  | VNone
  | VBool (b : bool)
  | VInt (z : Z)
  | VFloat (f : pyfloat)
  | VStr (s : string)
  | VObj (repr : string).

Module PyFloat.

Definition is_space (c : ascii) : bool :=
  let n := nat_of_ascii c in
  ((9 <=? n)%nat && (n <=? 13)%nat) || (n =? 32)%nat.

Definition is_digit (c : ascii) : bool :=
  let n := nat_of_ascii c in (48 <=? n)%nat && (n <=? 57)%nat.

Definition digit_val (c : ascii) : Z := Z.of_nat (nat_of_ascii c - 48).

Fixpoint lstrip (s : string) : string :=
  match s with
  | String c s' => if is_space c then lstrip s' else s
  | EmptyString => EmptyString
  end.

Fixpoint rstrip (s : string) : string :=
  match s with
  | EmptyString => EmptyString
  | String c s' =>
      match rstrip s' with
      | EmptyString => if is_space c then EmptyString else String c EmptyString
      | r => String c r
      end
  end.

(** [digit (["_"] digit)*] after its first digit: the digits read and
    the rest of the input. *)
Fixpoint digitpart_tail (s : string) : list Z * string :=
  match s with
  | String c s' =>
      if is_digit c then
        let '(ds, r) := digitpart_tail s' in (digit_val c :: ds, r)
      else if Ascii.eqb c "_" then
        match s' with
        | String c2 s'' =>
            if is_digit c2 then
              let '(ds, r) := digitpart_tail s'' in (digit_val c2 :: ds, r)
            else ([], s)
        | EmptyString => ([], s)
        end
      else ([], s)
  | EmptyString => ([], EmptyString)
  end.

Definition digitpart (s : string) : option (list Z * string) :=
  match s with
  | String c s' =>
      if is_digit c then
        let '(ds, r) := digitpart_tail s' in Some (digit_val c :: ds, r)
      else None
  | EmptyString => None
  end.

Definition sign (s : string) : bool * string :=
  match s with
  | String "-" s' => (true, s')
  | String "+" s' => (false, s')
  | _ => (false, s)
  end.

(** [[digitpart] "." digitpart | digitpart ["."]]: integer digits,
    fraction digits, rest. *)
Definition number (s : string) : option (list Z * list Z * string) :=
  match digitpart s with
  | Some (ip, r) =>
      match r with
      | String "." r' =>
          match digitpart r' with
          | Some (fp, r'') => Some (ip, fp, r'')
          | None => Some (ip, [], r')
          end
      | _ => Some (ip, [], r)
      end
  | None =>
      match s with
      | String "." r' =>
          match digitpart r' with
          | Some (fp, r'') => Some ([], fp, r'')
          | None => None
          end
      | _ => None
      end
  end.

Definition digits_to_Z (ds : list Z) : Z :=
  fold_left (fun acc d => (10 * acc + d)%Z) ds 0%Z.

(** [("e" | "E") [sign] digitpart] up to the end of the input, or
    nothing. *)
Definition exponent (s : string) : option Z :=
  match s with
  | EmptyString => Some 0%Z
  | String c s' =>
      if Ascii.eqb c "e" || Ascii.eqb c "E" then
        let '(neg, s'') := sign s' in
        match digitpart s'' with
        | Some (ds, EmptyString) =>
            Some (if neg then (- digits_to_Z ds)%Z else digits_to_Z ds)
        | _ => None
        end
      else None
  end.

(** [float(s)] for a string: [None] where Python raises [ValueError]. *)
Definition of_string (s : string) : option pyfloat :=
  let '(neg, body) := sign (rstrip (lstrip s)) in
  let low := Str.lower body in
  if String.eqb low "inf" || String.eqb low "infinity" then Some (Infinite neg)
  else if String.eqb low "nan" then Some NaN
  else
    match number body with
    | Some (ip, fp, r) =>
        match exponent r with
        | Some e =>
            let m := digits_to_Z (ip ++ fp) in
            Some (Finite (if neg then (- m)%Z else m) (e - Z.of_nat (length fp)))
        | None => None
        end
    | None => None
    end.

End PyFloat.

(** [float(v)] *)
Definition float (v : pyval) : result pyfloat :=
  match v with
  | VNone => Raise TypeError
  | VBool b => Ok (Finite (if b then 1 else 0) 0)
  | VInt z =>
      if (Z.abs z <? 2 ^ 1024 - 2 ^ 970)%Z then Ok (Finite z 0)
      else Raise OverflowError
  | VFloat f => Ok f
  | VStr s =>
      match PyFloat.of_string s with
      | Some f => Ok f
      | None => Raise ValueError
      end
  | VObj _ => Raise TypeError
  end.

(** [v != None] *)
Definition ne_None (v : pyval) : bool :=
  match v with
  | VNone => false
  | _ => true
  end.

(** ** MetricDataPoint and Metric *)

Record MetricDataPoint : Type := mkMetricDataPoint {
  value : pyval;
  window_start : pyval;
  window_end : pyval;
}.

Record Metric : Type := mkMetric {
  table_name : string;
  column_name : string;
  metric_type : MetricType;
  values : list MetricDataPoint;
}.

Definition METRIC_COLUMN : string := "{sql} AS {alias}".

Definition completeness : string := "COUNT({}) / CAST(COUNT(*) AS NUMERIC)".

Definition approx_distinct_count : string := "COUNT(DISTINCT {})".

Definition approx_distinctness : string :=
  "COUNT(DISTINCT {}) / CAST(COUNT(*) AS NUMERIC)".

Definition mean_length : string := "AVG(LENGTH({}))".

Definition max_length : string := "MAX(LENGTH({}))".

Definition min_length : string := "MIN(LENGTH({}))".

Definition std_length : string := "STDDEV(CAST(LENGTH({}) as double))".

Definition text_int_rate : string :=
  "SUM(IFF(REGEXP_COUNT(TO_VARCHAR({}), '^([-+]?[0-9]+)$', 1, 'i') != 0, 1, 0)) / CAST(COUNT(*) AS NUMERIC)".

Definition text_number_rate : string :=
  "SUM(IFF(REGEXP_COUNT(TO_VARCHAR({}), '^([-+]?[0-9]*[.]?[0-9]+([eE][-+]?[0-9]+)?)$', 1, 'i') != 0, 1, 0)) / CAST(COUNT(*) AS NUMERIC)".

Definition text_uuid_rate : string :=
  "SUM(IFF(REGEXP_COUNT(TO_VARCHAR({}), '^([0-9a-fA-F]{{8}}-[0-9a-fA-F]{{4}}-[0-9a-fA-F]{{4}}-[0-9a-fA-F]{{4}}-[0-9a-fA-F]{{12}})$', 1, 'i') != 0, 1, 0)) / CAST(COUNT(*) AS NUMERIC)".

Definition text_all_spaces_rate : string :=
  "SUM(IFF(REGEXP_COUNT(TO_VARCHAR({}), '^(\\s+)$', 1, 'i') != 0, 1, 0)) / CAST(COUNT(*) AS NUMERIC)".

Definition text_null_keyword_rate : string :=
  "SUM(IFF(UPPER({}) IN ('NULL', 'NONE', 'NIL', 'NOTHING'), 1, 0)) / CAST(COUNT(*) AS NUMERIC)".

Definition zero_rate : string :=
  "SUM(IFF(UPPER({}) IN ('NULL', 'NONE', 'NIL', 'NOTHING'), 1, 0)) / CAST(COUNT(*) AS NUMERIC)".

Definition negative_rate : string :=
  "SUM(IFF({} < 0, 1, 0)) / CAST(COUNT(*) AS NUMERIC)".

Definition numeric_mean : string := "AVG({})".

Definition numeric_min : string := "MIN({})".

Definition numeric_max : string := "MAX({})".

Definition numeric_std : string := "STDDEV(CAST({} as double))".

Definition _retrieve_unformatted_sql (metric_type : MetricType) : result string :=
  if decide (metric_type = COMPLETENESS) then Ok completeness
  else if decide (metric_type = APPROX_DISTINCT_COUNT) then Ok approx_distinct_count
  else if decide (metric_type = APPROX_DISTINCTNESS) then Ok approx_distinctness
  else if decide (metric_type = MEAN_LENGTH) then Ok mean_length
  else if decide (metric_type = MAX_LENGTH) then Ok max_length
  else if decide (metric_type = MIN_LENGTH) then Ok min_length
  else if decide (metric_type = STD_LENGTH) then Ok std_length
  else if decide (metric_type = TEXT_INT_RATE) then Ok text_int_rate
  else if decide (metric_type = TEXT_NUMBER_RATE) then Ok text_number_rate
  else if decide (metric_type = TEXT_UUID_RATE) then Ok text_uuid_rate
  else if decide (metric_type = TEXT_ALL_SPACES_RATE) then Ok text_all_spaces_rate
  else if decide (metric_type = TEXT_NULL_KEYWORD_RATE) then Ok text_null_keyword_rate
  else if decide (metric_type = ZERO_RATE) then Ok zero_rate
  else if decide (metric_type = NEGATIVE_RATE) then Ok negative_rate
  else if decide (metric_type = NUMERIC_MEAN) then Ok numeric_mean
  else if decide (metric_type = NUMERIC_MIN) then Ok numeric_mean
  else if decide (metric_type = NUMERIC_MAX) then Ok numeric_max
  else if decide (metric_type = NUMERIC_STD) then Ok numeric_std
  else Raise (Exception "Unreachable: Metric type is defined that does not resolve to a definition.").

(** The property [Metric.alias], from the two fields it reads. *)
Definition alias_of (column_name : string) (metric_type : MetricType) : result string :=
  Str.format "{}__{}" [column_name; value_of metric_type] [].

Definition alias (self : Metric) : result string :=
  alias_of (column_name self) (metric_type self).

(** The expression of [Metric.sql], before it is given its alias. *)
Definition formatted_sql (metric_type : MetricType) (column_name : string) : result string :=
  unformatted_sql ← _retrieve_unformatted_sql metric_type;
  Str.format unformatted_sql [column_name] [].

Definition sql (self : Metric) : result string :=
  formatted ← formatted_sql (metric_type self) (column_name self);
  a ← alias self;
  Str.format METRIC_COLUMN [] [("sql", formatted); ("alias", a)].

Definition parse_alias (alias : string) : result (string * string) :=
  let parts := Str.split (Str.lower alias) "__" in
  if negb (length parts =? 2)%nat then Raise (Exception "Could not parse metric alias")
  else
    match parts !! 0%nat, parts !! 1%nat with
    | Some p0, Some p1 => Ok (Str.lower p0, Str.lower p1)
    | _, _ => Raise IndexError
    end.

(** The loop of [Metric.nonnull_values]: each point's value is replaced by
    its float where [float] accepts it, and kept where [float] raises. *)
Definition coerce_point (point : MetricDataPoint) : MetricDataPoint :=
  match float (value point) with
  | Ok f => mkMetricDataPoint (VFloat f) (window_start point) (window_end point)
  | Raise _ => point
  end.

Fixpoint coerce_points (points : list MetricDataPoint) : list MetricDataPoint :=
  match points with
  | [] => []
  | point :: rest => coerce_point point :: coerce_points rest
  end.

(** [Metric.nonnull_values]: the metric after the call (its points are
    updated in place) and the list returned. *)
Definition nonnull_values (self : Metric) : Metric * list MetricDataPoint :=
  let self' := mkMetric (table_name self) (column_name self) (metric_type self)
                        (coerce_points (values self)) in
  (self', List.filter (fun x => ne_None (value x)) (values self')).

(** ** Dictionaries *)

(** A Python [dict] with string keys: the items in insertion order, no key
    twice. Assigning to a key that is present replaces its value where it
    stands; a new key goes to the end. *)
Module Dict.
Section Dict.
Context {V : Type}.

Fixpoint get (d : list (string * V)) (k : string) : option V :=
  match d with
  | [] => None
  | (k', v) :: rest => if String.eqb k' k then Some v else get rest k
  end.

(** [k in d] *)
Definition mem (k : string) (d : list (string * V)) : bool :=
  match get d k with Some _ => true | None => false end.

(** [d[k]] *)
Definition getitem (d : list (string * V)) (k : string) : result V :=
  match get d k with
  | Some v => Ok v
  | None => Raise (KeyError k)
  end.

(** [d[k] = v] *)
Fixpoint set (d : list (string * V)) (k : string) (v : V) : list (string * V) :=
  match d with
  | [] => [(k, v)]
  | (k', v') :: rest =>
      if String.eqb k' k then (k', v) :: rest else (k', v') :: set rest k v
  end.

(** [d.keys()] *)
Definition keys (d : list (string * V)) : list string := map fst d.
End Dict.
End Dict.

Abbreviation dict V := (list (string * V)).

(** ** The monitor and the result set *)

Record TableMetricsMonitor : Type := mkTableMetricsMonitor {
  table : string;
  timestamp_field : string;
  monitor_columns : list string;
  monitor_metrics : list string;
  where_clause : string;
}.

(** A result row maps a column name of the query to its cell. *)
Abbreviation Row := (dict pyval).

(** [results], of which [interpret_results] reads [results['rows']]. *)
Record Results : Type := mkResults {
  rows : list Row;
}.

(** ** MetricCompiler *)

(** The compiler instance: [metrics] is the store of its [Metric] objects,
    and a reference to one of them is its position. *)
Record MetricCompiler : Type := mkMetricCompiler {
  metrics : list Metric;
}.

Definition SPECIAL_KEYS : list string := ["window_start"; "window_end"; "row_count"].

Definition BASE_SQL : string := "
    SELECT 
        DATE_TRUNC('HOUR', {timestamp_field}) as window_start, 
        DATEADD(hr, 1, DATE_TRUNC('HOUR', {timestamp_field})) as window_end, 

        COUNT(*) as row_count, 

        {metric_sql}

    FROM {table}
    WHERE 
        DATE_TRUNC('HOUR', {timestamp_field}) >= DATEADD(day, {days_ago}, CURRENT_TIMESTAMP()) 
    GROUP BY window_start, window_end 
    ORDER BY window_start ASC;
    ".

Definition _create_metrics (table_name : string) (columns : list Column) : list Metric :=
  fold_left
    (fun metrics column =>
       let column_name := name column in
       let column_data_type := data_type column in
       fold_left
         (fun metrics metric_type =>
            metrics ++ [mkMetric table_name column_name metric_type []])
         (default_for column_data_type) metrics)
    columns [].

Fixpoint map_result {A B : Type} (f : A -> result B) (l : list A) : result (list B) :=
  match l with
  | [] => Ok []
  | a :: rest => b ← f a; bs ← map_result f rest; Ok (b :: bs)
  end.

(** [build_query]: the compiler after the call and the query. *)
Definition build_query (self : MetricCompiler) (monitor : TableMetricsMonitor)
    (columns : list Column) : result (MetricCompiler * string) :=
  let self := mkMetricCompiler (_create_metrics (table monitor) columns) in
  fragments ← map_result sql (metrics self);
  let metric_sql := Str.join (String "," (String "010" EmptyString)) fragments in
  let days_ago := "-85788" in
  query ← Str.format BASE_SQL []
            [("metric_sql", metric_sql);
             ("timestamp_field", timestamp_field monitor);
             ("table", table monitor);
             ("days_ago", days_ago)];
  Ok (self, query).

(** One step of the loop of [_metric_map], for the metric at [ref]. *)
Definition metric_map_step (metric_map : dict (dict nat)) (item : nat * Metric)
  : dict (dict nat) :=
  let '(ref, metric) := item in
  let column_name := Str.lower (column_name metric) in
  let metric_name := Str.lower (value_of (metric_type metric)) in
  let metric_map :=
    if negb (Dict.mem column_name metric_map)
    then Dict.set metric_map column_name []
    else metric_map in
  match Dict.get metric_map column_name with
  | Some inner => Dict.set metric_map column_name (Dict.set inner metric_name ref)
  | None => metric_map
  end.

Definition enumerate {A : Type} (l : list A) : list (nat * A) :=
  combine (seq 0 (length l)) l.

Definition _metric_map (self : MetricCompiler) : dict (dict nat) :=
  fold_left metric_map_step (enumerate (metrics self)) [].

(** [metric.values.append(data_point)] for the metric at [ref]. *)
Definition append_value (data_point : MetricDataPoint) (metric : Metric) : Metric :=
  mkMetric (table_name metric) (column_name metric) (metric_type metric)
           (values metric ++ [data_point]).

(** The body of the inner loop of [interpret_results], for one key of a
    row. *)
Definition interpret_cell (metric_map : dict (dict nat))
    (window_start window_end : pyval) (row : Row)
    (store : list Metric) (alias : string) : result (list Metric) :=
  if negb (Str.contains "__" alias) then Ok store
  else
    '(column_name, metric_name) ← parse_alias alias;
    by_name ← Dict.getitem metric_map column_name;
    ref ← Dict.getitem by_name metric_name;
    cell ← Dict.getitem row alias;
    value ← match float cell with
            | Ok f => Ok (VFloat f)
            | Raise TypeError => Ok VNone
            | Raise e => Raise e
            end;
    let data_point := mkMetricDataPoint value window_start window_end in
    Ok (alter (append_value data_point) ref store).

(** The body of the outer loop, for one row. *)
Definition interpret_row (metric_map : dict (dict nat))
    (store : list Metric) (row : Row) : result (list Metric) :=
  window_start ← Dict.getitem row "WINDOW_START";
  window_end ← Dict.getitem row "WINDOW_END";
  row_count ← Dict.getitem row "ROW_COUNT";
  for_each (interpret_cell metric_map window_start window_end row) (Dict.keys row) store.

(** The references [interpret_results] collects from the lookup table:
    going through the keys of a dictionary and looking each one up visits
    its items in order. *)
Definition flatten (metric_map : dict (dict nat)) : list nat :=
  fold_left
    (fun metrics column =>
       fold_left (fun metrics metric => metrics ++ [snd metric]) (snd column) metrics)
    metric_map [].

(** [interpret_results]: the compiler after the call and the references
    to the metrics returned. *)
Definition interpret_results (self : MetricCompiler) (results : Results)
  : result (MetricCompiler * list nat) :=
  let metric_map := _metric_map self in
  store ← for_each (interpret_row metric_map) (rows results) (metrics self);
  Ok (mkMetricCompiler store, flatten metric_map).

(** The objects behind a list of references. *)
Definition deref (self : MetricCompiler) (refs : list nat) : list Metric :=
  omap (fun ref => metrics self !! ref) refs.

(** ** The rest of the module *)

(** [MetricType.all]: the members of the enumeration, in the order of
    their declaration. *)
Definition MetricType_all : list MetricType :=
  [ COMPLETENESS; APPROX_DISTINCT_COUNT; APPROX_DISTINCTNESS; MEAN_LENGTH;
    MAX_LENGTH; MIN_LENGTH; STD_LENGTH; TEXT_INT_RATE; TEXT_NUMBER_RATE;
    TEXT_UUID_RATE; TEXT_ALL_SPACES_RATE; TEXT_NULL_KEYWORD_RATE; ZERO_RATE;
    NEGATIVE_RATE; NUMERIC_MEAN; NUMERIC_MIN; NUMERIC_MAX; NUMERIC_STD ].

(** [x in l] for a list of strings. *)
Definition str_in (x : string) (l : list string) : bool :=
  existsb (String.eqb x) l.

(** The predicate of the [filter] in
    [TableMetricsMonitor._columns_to_metrics]. *)
Definition _remove_special_keys (column : Column) : bool :=
  negb (str_in (Str.lower (name column)) SPECIAL_KEYS).

(** [TableMetricsMonitor._columns_to_metrics]: the (column, metric) pair
    of every column that is not reserved; the first alias that does not
    parse raises. *)
Definition _columns_to_metrics (columns : list Column) : result (list (string * string)) :=
  map_result (fun column => parse_alias (name column))
             (List.filter _remove_special_keys columns).

(** ** Notions used in the statements *)

(** The text before and after the first occurrence of the character
    [mark] in a rendered expression. *)
Fixpoint cut_at (mark : ascii) (s : string) : string * string :=
  match s with
  | EmptyString => (EmptyString, EmptyString)
  | String c s' =>
      if Ascii.eqb c mark then (EmptyString, s')
      else let '(before, after) := cut_at mark s' in (String c before, after)
  end.

(** The two constant parts of the expression of a kind, found by
    rendering it for a column whose name is the single character NUL. *)
Definition expression_parts (metric_type : MetricType) : string * string :=
  match formatted_sql metric_type (String "000" EmptyString) with
  | Ok expression => cut_at "000" expression
  | Raise _ => (EmptyString, EmptyString)
  end.

(** The metrics [build_query] creates for one column. *)
Definition column_metrics (table_name : string) (column : Column) : list Metric :=
  map (fun metric_type => mkMetric table_name (name column) metric_type [])
      (default_for (data_type column)).

(** A monitor and a column list to evaluate the compiler on. *)
Definition orders : TableMetricsMonitor :=
  mkTableMetricsMonitor "orders" "created_at" [] [] "".

Definition status_columns : list Column := [mkColumn "status" STRING].

(** One result row of the query built for [status_columns], with [cell]
    under the alias of the completeness metric. *)
Definition status_row (cell : pyval) : Row :=
  [("WINDOW_START", VStr "2023-01-01T00:00:00");
   ("WINDOW_END", VStr "2023-01-01T01:00:00");
   ("ROW_COUNT", VInt 10);
   ("status__completeness", cell)].

(** One cycle on a fresh compiler: build, then interpret. *)
Definition build_then_interpret (columns : list Column) (results : Results)
  : result (MetricCompiler * list nat) :=
  '(self, _) ← build_query (mkMetricCompiler []) orders columns;
  interpret_results self results.

(** The compiler and the query that [build_query] leaves for
    [status_columns]. *)
Definition status_compiler : MetricCompiler :=
  mkMetricCompiler (column_metrics "orders" (mkColumn "status" STRING)).

Definition status_query : string :=
  Eval vm_compute in
    match build_query (mkMetricCompiler []) orders status_columns with
    | Ok (_, query) => query
    | Raise _ => EmptyString
    end.

(** The data points a call appends, each with the metric it goes to. *)
Definition apply_appends (appends : list (nat * MetricDataPoint)) (store : list Metric)
  : list Metric :=
  fold_left (fun store '(ref, point) => alter (append_value point) ref store)
            appends store.

(** Among them, the points that go to the metric at [ref]. *)
Definition points_for (ref : nat) (appends : list (nat * MetricDataPoint))
  : list MetricDataPoint :=
  map snd (List.filter (fun item => Nat.eqb (fst item) ref) appends).

(** A step on the store that does not look at the store: it raises
    whatever the store, or appends the same points whatever the store. *)
Definition uniform (step : list Metric -> result (list Metric)) : Prop :=
  (exists e, forall store, step store = Raise e) \/
  (exists appends, forall store, step store = Ok (apply_appends appends store)).

(** What a metric measures: its table, its column and its kind. *)
Definition identity_of (metric : Metric) : string * string * MetricType :=
  (table_name metric, column_name metric, metric_type metric).

(** The references of a lookup table, column by column. *)
Definition references (metric_map : dict (dict nat)) : list nat :=
  concat (map (fun column => map snd (snd column)) metric_map).

(** The key under which [_metric_map] files a metric. *)
Definition key_of (metric : Metric) : string * string :=
  (Str.lower (column_name metric), Str.lower (value_of (metric_type metric))).

(** [(c, k)] is a key of the lookup table. *)
Definition has_key (metric_map : dict (dict nat)) (key : string * string) : Prop :=
  exists inner ref,
    Dict.get metric_map (fst key) = Some inner /\ Dict.get inner (snd key) = Some ref.

(** The lookup table sends [key] to [ref]. *)
Definition has_ref (metric_map : dict (dict nat)) (key : string * string) (ref : nat)
  : Prop :=
  exists inner,
    Dict.get metric_map (fst key) = Some inner /\ Dict.get inner (snd key) = Some ref.

(** The number of data points held by the metrics of a store. *)
Definition total_points (store : list Metric) : nat :=
  list_sum (map (fun metric => length (values metric)) store).

(** The number of cells of a result set that stand under a key with the
    separator. *)
Definition metric_cells (results : Results) : nat :=
  list_sum (map (fun row => length (List.filter (Str.contains "__") (Dict.keys row)))
                (rows results)).

(** The values [interpret_results] gives to a data point. *)
Definition float_or_None (v : pyval) : bool :=
  match v with
  | VNone | VFloat _ => true
  | _ => false
  end.

(** The keys of a dictionary, and of the dictionaries it holds, are
    pairwise distinct. *)
Definition well_formed (metric_map : dict (dict nat)) : Prop :=
  NoDup (map fst metric_map) /\
  forall c inner, In (c, inner) metric_map -> NoDup (map fst inner).

(** The metric at [ref] is the last one of [l] filed under [key]. *)
Definition last_with (l : list Metric) (key : string * string) (ref : nat) : Prop :=
  exists metric,
    l !! ref = Some metric /\ key_of metric = key /\
    forall ref' metric', l !! ref' = Some metric' -> key_of metric' = key -> ref' <= ref.

(** * Properties *)

(** ** The model on a few inputs *)

Example float_examples :
  float (VStr "1.0") = Ok (Finite 10 (-1)) /\
  float (VStr " -2_5.5e+3
") = Ok (Finite (-255) 2) /\
  float (VStr "1__0") = Raise ValueError /\
  float (VStr ".") = Raise ValueError /\
  float (VStr "1.") = Ok (Finite 1 0) /\
  float (VStr "-Infinity") = Ok (Infinite true) /\
  float (VStr "abc") = Raise ValueError /\
  float (VStr "") = Raise ValueError /\
  float VNone = Raise TypeError /\
  float (VInt 42) = Ok (Finite 42 0).
Proof. repeat split; reflexivity. Qed.

Example parse_alias_examples :
  parse_alias "status__completeness" = Ok ("status", "completeness") /\
  parse_alias "Status__Completeness" = Ok ("status", "completeness") /\
  parse_alias "a___b" = Ok ("a", "_b") /\
  parse_alias "__x" = Ok ("", "x") /\
  parse_alias "a__b__c" = Raise (Exception "Could not parse metric alias") /\
  parse_alias "row_count" = Raise (Exception "Could not parse metric alias") /\
  Str.split "a____b" "__" = ["a"; ""; "b"].
Proof. repeat split; reflexivity. Qed.

Example sql_example :
  sql (mkMetric "orders" "id" TEXT_UUID_RATE []) =
  Ok "SUM(IFF(REGEXP_COUNT(TO_VARCHAR(id), '^([0-9a-fA-F]{8}-[0-9a-fA-F]{4}-[0-9a-fA-F]{4}-[0-9a-fA-F]{4}-[0-9a-fA-F]{12})$', 1, 'i') != 0, 1, 0)) / CAST(COUNT(*) AS NUMERIC) AS id__text_uuid_rate".
Proof. reflexivity. Qed.

(** ** Strings *)

Section StrFacts.

Lemma append_assoc (a b c : string) : (a +:+ b) +:+ c = a +:+ (b +:+ c).
Proof. induction a as [|x a IH]; simpl; [reflexivity | now rewrite IH]. Qed.

Lemma append_empty_r (a : string) : a +:+ EmptyString = a.
Proof. induction a as [|x a IH]; simpl; [reflexivity | now rewrite IH]. Qed.

Lemma lower_app (a b : string) : Str.lower (a +:+ b) = Str.lower a +:+ Str.lower b.
Proof. induction a as [|x a IH]; simpl; [reflexivity | now rewrite IH]. Qed.

Lemma lower_char_idemp (c : ascii) : Str.lower_char (Str.lower_char c) = Str.lower_char c.
Proof. destruct c as [[] [] [] [] [] [] [] []]; reflexivity. Qed.

Lemma lower_idemp (s : string) : Str.lower (Str.lower s) = Str.lower s.
Proof.
  induction s as [|x s IH]; simpl; [reflexivity|].
  now rewrite lower_char_idemp, IH.
Qed.

Lemma underscore_lower_char (c : ascii) :
  Ascii.eqb "_" (Str.lower_char c) = Ascii.eqb "_" c.
Proof. destruct c as [[] [] [] [] [] [] [] []]; reflexivity. Qed.

Lemma lower_char_underscore (c : ascii) :
  Ascii.eqb (Str.lower_char c) "_" = Ascii.eqb c "_".
Proof. destruct c as [[] [] [] [] [] [] [] []]; reflexivity. Qed.

(** Lowering neither creates nor removes a separator. *)
Lemma startswith_sep_lower (s : string) :
  Str.startswith "__" (Str.lower s) = Str.startswith "__" s.
Proof.
  destruct s as [|x [|y s]]; cbn [Str.startswith Str.lower];
    rewrite ?underscore_lower_char; reflexivity.
Qed.

Lemma contains_sep_lower (s : string) :
  Str.contains "__" (Str.lower s) = Str.contains "__" s.
Proof.
  induction s as [|x s IH]; [reflexivity|].
  change (Str.lower (String x s)) with (String (Str.lower_char x) (Str.lower s)).
  cbn [Str.contains]. rewrite IH. f_equal.
  apply (startswith_sep_lower (String x s)).
Qed.

Lemma ends_with_underscore_lower (s : string) :
  Str.ends_with_char "_" (Str.lower s) = Str.ends_with_char "_" s.
Proof.
  induction s as [|x s IH]; [reflexivity|].
  destruct s as [|y s]; simpl in *.
  - apply lower_char_underscore.
  - exact IH.
Qed.

Lemma split_go_lower (s : string) : forall skip cur,
  Str.split_go "__" skip (Str.lower cur) (Str.lower s) =
  map Str.lower (Str.split_go "__" skip cur s).
Proof.
  induction s as [|x s IH]; intros skip cur; [reflexivity|].
  change (Str.lower (String x s)) with (String (Str.lower_char x) (Str.lower s)).
  cbn [Str.split_go]. destruct skip as [|n]; [|apply IH].
  change (String (Str.lower_char x) (Str.lower s)) with (Str.lower (String x s)).
  rewrite startswith_sep_lower.
  destruct (Str.startswith "__" (String x s)).
  - cbn [map]. f_equal. apply (IH _ EmptyString).
  - rewrite <- IH. f_equal. now rewrite lower_app.
Qed.

Lemma split_lower (s : string) :
  Str.split (Str.lower s) "__" = map Str.lower (Str.split s "__").
Proof. apply (split_go_lower s 0 EmptyString). Qed.

(** A string without the separator is a single part. *)
Lemma split_go_no_sep (v : string) : forall cur,
  Str.contains "__" v = false ->
  Str.split_go "__" 0 cur v = [cur +:+ v].
Proof.
  induction v as [|x v IH]; intros cur H.
  - simpl. now rewrite append_empty_r.
  - cbn [Str.contains] in H. apply orb_false_iff in H as [H1 H2].
    cbn [Str.split_go]. rewrite H1, (IH _ H2), append_assoc. reflexivity.
Qed.

Lemma split_go_at_sep (cur v : string) :
  Str.split_go "__" 0 cur ("__" +:+ v) = cur :: Str.split_go "__" 0 EmptyString v.
Proof. reflexivity. Qed.

(** In front of a separator, a string that has none and does not end
    with an underscore is read up to that separator. *)
Lemma split_go_one_sep (c v : string) : forall cur,
  Str.contains "__" c = false ->
  Str.ends_with_char "_" c = false ->
  Str.contains "__" v = false ->
  Str.split_go "__" 0 cur (c +:+ "__" +:+ v) = [cur +:+ c; v].
Proof.
  induction c as [|x c IH]; intros cur Hc He Hv.
  - change (EmptyString +:+ "__" +:+ v) with ("__" +:+ v).
    rewrite split_go_at_sep, append_empty_r.
    now rewrite (split_go_no_sep v EmptyString Hv).
  - cbn [Str.contains] in Hc. apply orb_false_iff in Hc as [H1 H2].
    assert (Hs : Str.startswith "__" (String x (c +:+ "__" +:+ v)) = false).
    { destruct c as [|y c].
      - cbn [Str.ends_with_char] in He.
        change (Ascii.eqb "_" x && (Ascii.eqb "_" "_" && true) = false).
        rewrite (Ascii.eqb_sym "_" x), He. reflexivity.
      - exact H1. }
    assert (He' : Str.ends_with_char "_" c = false).
    { destruct c; [reflexivity | exact He]. }
    change (String x c +:+ "__" +:+ v) with (String x (c +:+ "__" +:+ v)).
    cbn [Str.split_go]. rewrite Hs, (IH _ H2 He' Hv), append_assoc.
    reflexivity.
Qed.

Lemma lower_value_of (k : MetricType) : Str.lower (value_of k) = value_of k.
Proof. destruct k; reflexivity. Qed.

Lemma value_of_no_sep (k : MetricType) : Str.contains "__" (value_of k) = false.
Proof. destruct k; reflexivity. Qed.

Lemma value_of_inj : Inj eq eq value_of.
Proof. intros k1 k2 H. destruct k1, k2; solve [reflexivity | discriminate H]. Qed.

End StrFacts.

(** ** The alias codec *)

Lemma alias_of_eq (c : string) (k : MetricType) :
  alias_of c k = Ok (c +:+ "__" +:+ value_of k).
Proof.
  unfold alias_of, Str.format. simpl. now rewrite append_empty_r.
Qed.

Lemma parse_alias_parts (a : string) :
  parse_alias a =
  match Str.split a "__" with
  | [p0; p1] => Ok (Str.lower p0, Str.lower p1)
  | _ => Raise (Exception "Could not parse metric alias")
  end.
Proof.
  unfold parse_alias. rewrite split_lower.
  destruct (Str.split a "__") as [|p0 [|p1 [|p2 l]]]; simpl; try reflexivity.
  now rewrite !lower_idemp.
Qed.

(** C4 (as stated, refuted). The column name [Status] has no separator,
    yet decoding its alias gives back [status]; the column name [a_] has
    no separator either, yet its alias is cut one character early. *)
Lemma parse_alias_of_alias_changes_name :
  Str.contains "__" "Status" = false /\
  (alias_of "Status" COMPLETENESS ≫= parse_alias) = Ok ("status", "completeness") /\
  (alias_of "Status" COMPLETENESS ≫= parse_alias)
    <> Ok ("Status", value_of COMPLETENESS) /\
  Str.contains "__" "a_" = false /\
  (alias_of "a_" COMPLETENESS ≫= parse_alias) = Ok ("a", "_completeness") /\
  (alias_of "a_" COMPLETENESS ≫= parse_alias) <> Ok ("a_", value_of COMPLETENESS).
Proof. repeat split; try reflexivity; discriminate. Qed.

(** C4 (amended). For every metric kind [k] and every column name [c]
    that contains no separator and does not end with an underscore,
    decoding the alias built from [(c, k)] yields the lowercased column
    name and the value string of [k]; this is the pair [(c, k.value)]
    when [c] is in lower case. *)
Theorem parse_alias_of_alias (k : MetricType) (c : string) :
  Str.contains "__" c = false ->
  Str.ends_with_char "_" c = false ->
  (alias_of c k ≫= parse_alias) = Ok (Str.lower c, value_of k) /\
  (Str.lower c = c -> (alias_of c k ≫= parse_alias) = Ok (c, value_of k)).
Proof.
  intros Hc He.
  assert (H : (alias_of c k ≫= parse_alias) = Ok (Str.lower c, value_of k)).
  { rewrite alias_of_eq. change (parse_alias (c +:+ "__" +:+ value_of k) = Ok (Str.lower c, value_of k)).
    rewrite parse_alias_parts. unfold Str.split.
    rewrite (split_go_one_sep c (value_of k) EmptyString Hc He (value_of_no_sep k)).
    change (EmptyString +:+ c) with c. now rewrite lower_value_of. }
  split; [exact H | intros Hl; now rewrite H, Hl].
Qed.

Lemma parse_alias_of_alias_witness :
  (alias_of "status" COMPLETENESS ≫= parse_alias) = Ok ("status", "completeness").
Proof.
  exact (proj1 (parse_alias_of_alias COMPLETENESS "status" eq_refl eq_refl)).
Defined.

(** C5 (as stated, refuted). [parse_alias] succeeds on an alias whose
    first part is empty. *)
Lemma parse_alias_accepts_empty_part :
  parse_alias "__x" = Ok ("", "x") /\
  ~ (returns (parse_alias "__x") = true <->
     exists p0 p1, Str.split "__x" "__" = [p0; p1] /\ p0 <> "" /\ p1 <> "").
Proof.
  split; [reflexivity|].
  intros [H _]. destruct (H eq_refl) as (p0 & p1 & Hs & Hp0 & _).
  apply Hp0. vm_compute in Hs. congruence.
Qed.

(** C5 (amended). For every string [a], [parse_alias a] succeeds if and
    only if splitting [a] on the separator yields exactly two parts, empty
    or not; it then returns the two parts in lower case, and in every
    other case it raises its parse error. *)
Theorem parse_alias_succeeds_iff_two_parts (a : string) :
  (returns (parse_alias a) = true <-> length (Str.split a "__") = 2%nat) /\
  (forall p0 p1, Str.split a "__" = [p0; p1] ->
     parse_alias a = Ok (Str.lower p0, Str.lower p1)) /\
  (length (Str.split a "__") <> 2%nat ->
     parse_alias a = Raise (Exception "Could not parse metric alias")).
Proof.
  rewrite parse_alias_parts.
  destruct (Str.split a "__") as [|p0 [|p1 [|p2 l]]]; simpl;
    (split; [split; intros H; (discriminate H || reflexivity)|]);
    (split; [intros q0 q1 H; (discriminate H || (injection H as <- <-; reflexivity))
            | intros H; (reflexivity || (exfalso; apply H; reflexivity))]).
Qed.

Lemma parse_alias_succeeds_iff_two_parts_witness :
  parse_alias "status__completeness" = Ok ("status", "completeness") /\
  parse_alias "row_count" = Raise (Exception "Could not parse metric alias").
Proof.
  split.
  - exact (proj1 (proj2 (parse_alias_succeeds_iff_two_parts "status__completeness"))
             "status" "completeness" eq_refl).
  - apply (proj2 (proj2 (parse_alias_succeeds_iff_two_parts "row_count"))).
    vm_compute. discriminate.
Defined.

(** ** The catalogue *)

(** C6. [default_for] returns the twelve fixed kinds for a [STRING]
    column, the eight fixed kinds for an [INTEGER] column, and the empty
    list, without raising, for every other data type. *)
Theorem default_for_kinds :
  default_for STRING =
    [COMPLETENESS; APPROX_DISTINCT_COUNT; APPROX_DISTINCTNESS; MEAN_LENGTH;
     MAX_LENGTH; MIN_LENGTH; STD_LENGTH; TEXT_INT_RATE; TEXT_NUMBER_RATE;
     TEXT_UUID_RATE; TEXT_ALL_SPACES_RATE; TEXT_NULL_KEYWORD_RATE] /\
  length (default_for STRING) = 12%nat /\
  default_for INTEGER =
    [COMPLETENESS; ZERO_RATE; NEGATIVE_RATE; APPROX_DISTINCTNESS;
     NUMERIC_MEAN; NUMERIC_MIN; NUMERIC_MAX; NUMERIC_STD] /\
  length (default_for INTEGER) = 8%nat /\
  (forall t, t <> STRING -> t <> INTEGER -> default_for t = []).
Proof.
  repeat split.
  intros t Hs Hi. unfold default_for.
  destruct (decide (t = STRING)); [contradiction|].
  destruct (decide (t = INTEGER)); [contradiction|reflexivity].
Qed.

Lemma default_for_kinds_witness : default_for OTHER = [].
Proof.
  apply (proj2 (proj2 (proj2 (proj2 default_for_kinds)))); discriminate.
Defined.

(** ** The SQL templates *)

(** C3 (evaluated on the code). For every column name [c] the expression
    rendered for [NUMERIC_MIN] is the mean template, [AVG(c)], and not
    [MIN(c)]; [NUMERIC_MEAN] renders [AVG(c)] and [NUMERIC_MAX] renders
    [MAX(c)]. *)
Theorem numeric_min_renders_mean (c : string) :
  formatted_sql NUMERIC_MIN c = Ok ("AVG(" +:+ c +:+ ")") /\
  formatted_sql NUMERIC_MIN c <> Ok ("MIN(" +:+ c +:+ ")") /\
  formatted_sql NUMERIC_MEAN c = Ok ("AVG(" +:+ c +:+ ")") /\
  formatted_sql NUMERIC_MAX c = Ok ("MAX(" +:+ c +:+ ")").
Proof. repeat split; try reflexivity. discriminate. Qed.

(** C7. For every column name [c], [ZERO_RATE] and
    [TEXT_NULL_KEYWORD_RATE] render the same expression: the fraction of
    rows whose uppercased value is one of NULL, NONE, NIL, NOTHING. *)
Theorem zero_rate_renders_null_keyword_rate (c : string) :
  formatted_sql ZERO_RATE c = formatted_sql TEXT_NULL_KEYWORD_RATE c /\
  formatted_sql ZERO_RATE c =
    Ok ("SUM(IFF(UPPER(" +:+ c +:+
        ") IN ('NULL', 'NONE', 'NIL', 'NOTHING'), 1, 0)) / CAST(COUNT(*) AS NUMERIC)") /\
  _retrieve_unformatted_sql ZERO_RATE = _retrieve_unformatted_sql TEXT_NULL_KEYWORD_RATE.
Proof. repeat split; reflexivity. Qed.

(** ** nonnull_values *)

Lemma coerce_points_map (points : list MetricDataPoint) :
  coerce_points points = map coerce_point points.
Proof. induction points as [|p l IH]; simpl; [reflexivity | now rewrite IH]. Qed.

Lemma float_None_raises : float VNone = Raise TypeError.
Proof. reflexivity. Qed.

(** Coercion never turns a value into [None], nor [None] into a value. *)
Lemma coerce_point_ne_None (point : MetricDataPoint) :
  ne_None (value (coerce_point point)) = ne_None (value point).
Proof.
  unfold coerce_point. destruct (float (value point)) as [f|e] eqn:E; [|reflexivity].
  destruct (value point); simpl in *; try reflexivity. discriminate E.
Qed.

(** C10. [nonnull_values] first replaces, in place, the value of each
    point by its float where that coercion succeeds, a point whose value
    cannot be coerced keeping its value; it returns, in order, exactly
    the points whose value is then not [None]. *)
Theorem nonnull_values_coerces_then_filters (self self' : Metric)
    (returned : list MetricDataPoint) :
  nonnull_values self = (self', returned) ->
  table_name self' = table_name self /\
  column_name self' = column_name self /\
  metric_type self' = metric_type self /\
  length (values self') = length (values self) /\
  (forall i point, values self !! i = Some point ->
     exists point',
       values self' !! i = Some point' /\
       window_start point' = window_start point /\
       window_end point' = window_end point /\
       match float (value point) with
       | Ok f => value point' = VFloat f
       | Raise _ => value point' = value point
       end) /\
  returned = List.filter (fun x => ne_None (value x)) (values self') /\
  (forall point, In point returned <-> In point (values self') /\ value point <> VNone).
Proof.
  unfold nonnull_values. intros H. injection H as <- <-. cbn [values table_name column_name metric_type].
  rewrite coerce_points_map.
  repeat split; try reflexivity.
  - apply length_map.
  - intros i point Hi. exists (coerce_point point). split.
    + change (map coerce_point (values self)) with (coerce_point <$> values self).
      now rewrite list_lookup_fmap, Hi.
    + unfold coerce_point. destruct (float (value point)); repeat split; reflexivity.
  - apply filter_In in H. apply H.
  - apply filter_In in H as [_ H]. intros E. rewrite E in H. discriminate H.
  - intros [H1 H2]. apply filter_In. split; [exact H1|].
    destruct (value point); solve [reflexivity | congruence].
Qed.

Lemma nonnull_values_coerces_then_filters_witness :
  let self := mkMetric "orders" "status" COMPLETENESS
                [mkMetricDataPoint (VStr "1.0") (VStr "t0") (VStr "t1");
                 mkMetricDataPoint VNone (VStr "t1") (VStr "t2");
                 mkMetricDataPoint (VStr "abc") (VStr "t2") (VStr "t3")] in
  snd (nonnull_values self) =
  List.filter (fun x => ne_None (value x)) (values (fst (nonnull_values self))).
Proof.
  intros self.
  exact (proj1 (proj2 (proj2 (proj2 (proj2 (proj2
    (nonnull_values_coerces_then_filters self (fst (nonnull_values self))
       (snd (nonnull_values self)) eq_refl))))))).
Defined.

(** ** build_query *)

Lemma _create_metrics_inner (table_name column_name : string) (kinds : list MetricType) :
  forall acc,
    fold_left
      (fun metrics metric_type =>
         metrics ++ [mkMetric table_name column_name metric_type []])
      kinds acc
    = acc ++ map (fun metric_type => mkMetric table_name column_name metric_type []) kinds.
Proof.
  induction kinds as [|k kinds IH]; intros acc; simpl.
  - now rewrite app_nil_r.
  - rewrite IH, <- app_assoc. reflexivity.
Qed.

Lemma _create_metrics_flat_map (table_name : string) (columns : list Column) :
  _create_metrics table_name columns = flat_map (column_metrics table_name) columns.
Proof.
  unfold _create_metrics.
  enough (H : forall acc,
    fold_left
      (fun metrics column =>
         let column_name := name column in
         let column_data_type := data_type column in
         fold_left
           (fun metrics metric_type =>
              metrics ++ [mkMetric table_name column_name metric_type []])
           (default_for column_data_type) metrics)
      columns acc
    = acc ++ flat_map (column_metrics table_name) columns) by apply (H []).
  induction columns as [|c columns IH]; intros acc; simpl.
  - now rewrite app_nil_r.
  - rewrite IH, _create_metrics_inner, <- app_assoc. reflexivity.
Qed.

Lemma sql_returns (metric : Metric) : exists fragment, sql metric = Ok fragment.
Proof.
  destruct metric as [t c k vs]. destruct k; eexists; reflexivity.
Qed.

Lemma map_result_returns {A B : Type} (f : A -> result B) (l : list A) :
  (forall a, exists b, f a = Ok b) ->
  exists bs, map_result f l = Ok bs /\ Forall2 (fun a b => f a = Ok b) l bs.
Proof.
  intros Hf. induction l as [|a l (bs & IH & HF)]; simpl.
  - exists []. split; [reflexivity | constructor].
  - destruct (Hf a) as [b Hb]. rewrite Hb, IH. exists (b :: bs).
    split; [reflexivity | now constructor].
Qed.

Lemma BASE_SQL_format_returns (metric_sql timestamp_field table days_ago : string) :
  exists query,
    Str.format BASE_SQL []
      [("metric_sql", metric_sql); ("timestamp_field", timestamp_field);
       ("table", table); ("days_ago", days_ago)] = Ok query.
Proof. eexists. vm_compute. reflexivity. Qed.

Lemma build_query_metrics self0 monitor columns self query :
  build_query self0 monitor columns = Ok (self, query) ->
  metrics self = flat_map (column_metrics (table monitor)) columns.
Proof.
  unfold build_query. rewrite _create_metrics_flat_map.
  destruct (map_result sql _) as [fragments|e]; [|discriminate]. cbn [mbind result_bind metrics].
  destruct (Str.format BASE_SQL _ _) as [q|e]; [|discriminate].
  intros H. injection H as <- _. reflexivity.
Qed.

Lemma build_query_values_empty self0 monitor columns self query :
  build_query self0 monitor columns = Ok (self, query) ->
  Forall (fun metric => values metric = []) (metrics self).
Proof.
  intros H. rewrite (build_query_metrics _ _ _ _ _ H).
  apply Forall_forall. intros m Hm. apply list_elem_of_In in Hm.
  apply in_flat_map in Hm as (c & _ & Hm).
  unfold column_metrics in Hm. apply in_map_iff in Hm as (k & <- & _). reflexivity.
Qed.

(** C2 (as stated, refuted). A column named [row_count] of an integer
    type gets its eight metrics, and the query its eight fragments. *)
Lemma build_query_compiles_row_count :
  match build_query (mkMetricCompiler []) orders [mkColumn "row_count" INTEGER] with
  | Ok (self, query) =>
      map column_name (metrics self) = repeat "row_count" 8 /\
      map metric_type (metrics self) = _number_types /\
      Str.contains
        "COUNT(row_count) / CAST(COUNT(*) AS NUMERIC) AS row_count__completeness"
        query = true
  | Raise _ => False
  end.
Proof. vm_compute. repeat split. Qed.

(** C2 (amended). For every monitor and every column list,
    [build_query] returns, and generates for every column, whatever its
    name (reserved or not), one [Metric] with no data point and one SQL
    fragment per kind of [default_for] at the column's data type, in
    order; the query is [BASE_SQL] filled with these fragments. *)
Theorem build_query_compiles_every_column (self0 : MetricCompiler)
    (monitor : TableMetricsMonitor) (columns : list Column) :
  exists self fragments query,
    build_query self0 monitor columns = Ok (self, query) /\
    metrics self =
      flat_map
        (fun column =>
           map (fun metric_type => mkMetric (table monitor) (name column) metric_type [])
               (default_for (data_type column)))
        columns /\
    Forall2 (fun metric fragment => sql metric = Ok fragment) (metrics self) fragments /\
    Str.format BASE_SQL []
      [("metric_sql", Str.join (String "," (String "010" EmptyString)) fragments);
       ("timestamp_field", timestamp_field monitor);
       ("table", table monitor);
       ("days_ago", "-85788")] = Ok query.
Proof.
  destruct (map_result_returns sql (_create_metrics (table monitor) columns) sql_returns)
    as (fragments & Hf & HF).
  destruct (BASE_SQL_format_returns
              (Str.join (String "," (String "010" EmptyString)) fragments)
              (timestamp_field monitor) (table monitor) "-85788") as [query Hq].
  exists (mkMetricCompiler (_create_metrics (table monitor) columns)), fragments, query.
  repeat split.
  - unfold build_query. cbn [metrics]. rewrite Hf. cbn [mbind result_bind].
    rewrite Hq. reflexivity.
  - apply _create_metrics_flat_map.
  - exact HF.
  - exact Hq.
Qed.

(** ** interpret_results *)

Lemma status_build :
  build_query (mkMetricCompiler []) orders status_columns
  = Ok (status_compiler, status_query).
Proof. vm_compute. reflexivity. Qed.

(** C1 (evaluated on the code). A cell that is [None] is recorded as a
    data point without a value, but a cell holding the text [abc] makes
    [interpret_results] raise [ValueError]: only [TypeError] is caught. *)
Theorem interpret_results_raises_on_text_cell :
  float (VStr "abc") = Raise ValueError /\
  build_then_interpret status_columns (mkResults [status_row (VStr "abc")])
    = Raise ValueError /\
  (exists self refs,
     build_then_interpret status_columns (mkResults [status_row VNone])
       = Ok (self, refs) /\
     values <$> metrics self !! 0%nat =
       Some [mkMetricDataPoint VNone (VStr "2023-01-01T00:00:00")
                               (VStr "2023-01-01T01:00:00")]).
Proof.
  split; [reflexivity|]. split; [vm_compute; reflexivity|].
  eexists _, _. split; vm_compute; reflexivity.
Qed.

(** *** The effect of a call on the store *)

Lemma uniform_raise (e : exn) : uniform (fun _ => Raise e).
Proof. left. now exists e. Qed.

Lemma uniform_bind {A : Type} (r : result A) (k : A -> list Metric -> result (list Metric)) :
  (forall a, uniform (k a)) -> uniform (fun store => a ← r; k a store).
Proof. intros H. destruct r as [a|e]; [apply H | apply uniform_raise]. Qed.

Lemma apply_appends_app (d1 d2 : list (nat * MetricDataPoint)) (store : list Metric) :
  apply_appends (d1 ++ d2) store = apply_appends d2 (apply_appends d1 store).
Proof. apply fold_left_app. Qed.

Lemma for_each_uniform {X : Type} (body : list Metric -> X -> result (list Metric))
    (items : list X) :
  (forall x, uniform (fun store => body store x)) ->
  uniform (for_each body items).
Proof.
  intros Hb. induction items as [|x items IH].
  - right. exists []. reflexivity.
  - destruct (Hb x) as [[e He] | [d1 H1]].
    + left. exists e. intros store. simpl. now rewrite He.
    + destruct IH as [[e He] | [d2 H2]].
      * left. exists e. intros store. simpl. rewrite H1. apply He.
      * right. exists (d1 ++ d2). intros store. simpl.
        rewrite H1, apply_appends_app. apply H2.
Qed.

Lemma interpret_cell_uniform metric_map window_start window_end row alias :
  uniform (fun store => interpret_cell metric_map window_start window_end row store alias).
Proof.
  unfold interpret_cell.
  destruct (negb (Str.contains "__" alias)).
  - right. exists []. reflexivity.
  - apply uniform_bind. intros [column_name metric_name].
    apply uniform_bind. intros by_name.
    apply uniform_bind. intros ref.
    apply uniform_bind. intros cell.
    apply uniform_bind. intros value.
    right. exists [(ref, mkMetricDataPoint value window_start window_end)].
    reflexivity.
Qed.

Lemma interpret_row_uniform metric_map row :
  uniform (fun store => interpret_row metric_map store row).
Proof.
  unfold interpret_row.
  apply uniform_bind. intros window_start.
  apply uniform_bind. intros window_end.
  apply uniform_bind. intros row_count.
  apply for_each_uniform. intros alias. apply interpret_cell_uniform.
Qed.

Lemma interpret_rows_uniform metric_map rows :
  uniform (for_each (interpret_row metric_map) rows).
Proof. apply for_each_uniform. intros row. apply interpret_row_uniform. Qed.

Lemma apply_appends_length appends : forall store,
  length (apply_appends appends store) = length store.
Proof.
  induction appends as [|[ref point] appends IH]; intros store; simpl; [reflexivity|].
  unfold apply_appends in IH. now rewrite IH, length_alter.
Qed.

Lemma apply_appends_lookup appends : forall store ref metric,
  store !! ref = Some metric ->
  exists metric',
    apply_appends appends store !! ref = Some metric' /\
    identity_of metric' = identity_of metric /\
    values metric' = values metric ++ points_for ref appends.
Proof.
  induction appends as [|[r point] appends IH]; intros store ref metric H.
  - exists metric. simpl. now rewrite app_nil_r.
  - change (apply_appends ((r, point) :: appends) store)
      with (apply_appends appends (alter (append_value point) r store)).
    unfold points_for. cbn [List.filter fst]. fold (points_for ref appends).
    destruct (Nat.eqb_spec r ref) as [->|Hne].
    + destruct (IH (alter (append_value point) ref store) ref (append_value point metric))
        as (m' & H1 & H2 & H3).
      { now rewrite list_lookup_alter_eq, H. }
      exists m'. split; [exact H1|]. split; [exact H2|].
      rewrite H3. cbn [values append_value map snd]. now rewrite <- app_assoc.
    + destruct (IH (alter (append_value point) r store) ref metric) as (m' & H1 & H2 & H3).
      { now rewrite list_lookup_alter_ne. }
      exists m'. auto.
Qed.

Lemma apply_appends_identity appends (store : list Metric) :
  map identity_of (apply_appends appends store) = map identity_of store.
Proof.
  apply list_eq. intros i.
  change (map identity_of ?l) with (identity_of <$> l).
  rewrite !list_lookup_fmap.
  destruct (store !! i) as [m|] eqn:E.
  - destruct (apply_appends_lookup appends store i m E) as (m' & -> & H & _).
    simpl. now rewrite H.
  - apply lookup_ge_None in E.
    rewrite (proj2 (lookup_ge_None _ _)); [reflexivity|].
    now rewrite apply_appends_length.
Qed.

(** The lookup table is made from what the metrics measure, not from
    their data points. *)
Lemma _metric_map_identity (self self' : MetricCompiler) :
  map identity_of (metrics self) = map identity_of (metrics self') ->
  _metric_map self = _metric_map self'.
Proof.
  unfold _metric_map, enumerate. destruct self as [l], self' as [l']. cbn [metrics].
  generalize (@nil (string * list (string * nat))) as acc. generalize 0%nat as start.
  revert l'. induction l as [|m l IH]; intros [|m' l'] start acc H; try discriminate H.
  - reflexivity.
  - simpl in H. injection H as Ht Hc Hk Hl.
    cbn [length seq combine fold_left].
    rewrite (IH l' (S start) _ Hl). f_equal.
    unfold metric_map_step. now rewrite Hc, Hk.
Qed.

Lemma interpret_results_appends (self : MetricCompiler) (results : Results)
    (self' : MetricCompiler) (refs : list nat) :
  interpret_results self results = Ok (self', refs) ->
  refs = flatten (_metric_map self) /\
  exists appends,
    metrics self' = apply_appends appends (metrics self) /\
    forall store,
      for_each (interpret_row (_metric_map self)) (rows results) store
      = Ok (apply_appends appends store).
Proof.
  unfold interpret_results. intros H.
  destruct (interpret_rows_uniform (_metric_map self) (rows results))
    as [[e He] | [appends Ha]].
  - rewrite He in H. discriminate H.
  - rewrite Ha in H. injection H as <- <-. split; [reflexivity|].
    exists appends. split; [reflexivity | exact Ha].
Qed.

(** *** Dictionaries *)

Section DictFacts.
Context {V : Type}.
Implicit Types (d : dict V) (k : string) (v : V).

Lemma dict_get_set_eq d k v : Dict.get (Dict.set d k v) k = Some v.
Proof.
  induction d as [|[k' v'] d IH]; simpl.
  - now rewrite String.eqb_refl.
  - destruct (String.eqb k' k) eqn:E; simpl; rewrite E; [reflexivity | exact IH].
Qed.

Lemma dict_get_set_ne d k k' v : k <> k' -> Dict.get (Dict.set d k v) k' = Dict.get d k'.
Proof.
  intros Hne. induction d as [|[k0 v0] d IH]; simpl.
  - destruct (String.eqb_spec k k'); [contradiction | reflexivity].
  - destruct (String.eqb_spec k0 k) as [->|Hk]; simpl.
    + destruct (String.eqb_spec k k'); [contradiction | reflexivity].
    + now rewrite IH.
Qed.

Lemma dict_set_absent d k v : Dict.get d k = None -> Dict.set d k v = d ++ [(k, v)].
Proof.
  induction d as [|[k' v'] d IH]; simpl; [reflexivity|].
  destruct (String.eqb k' k); [discriminate|]. intros H. now rewrite IH.
Qed.

Lemma dict_set_set d k v v' : Dict.set (Dict.set d k v) k v' = Dict.set d k v'.
Proof.
  induction d as [|[k0 v0] d IH]; simpl.
  - now rewrite String.eqb_refl.
  - destruct (String.eqb k0 k) eqn:E; simpl; rewrite E; [reflexivity | now rewrite IH].
Qed.

End DictFacts.

(** *** The lookup table and the references it gives back *)

Lemma flatten_references (metric_map : dict (dict nat)) :
  flatten metric_map = references metric_map.
Proof.
  unfold flatten, references.
  enough (H : forall acc,
    fold_left
      (fun metrics (column : string * dict nat) =>
         fold_left (fun metrics (metric : string * nat) => metrics ++ [snd metric])
                   (snd column) metrics)
      metric_map acc
    = acc ++ concat (map (fun column => map snd (snd column)) metric_map))
    by apply (H []).
  induction metric_map as [|[c inner] mm IH]; intros acc; simpl.
  - now rewrite app_nil_r.
  - rewrite IH, app_assoc. f_equal.
    clear IH. revert acc. induction inner as [|[k r] inner IHi]; intros acc; simpl.
    + now rewrite app_nil_r.
    + rewrite IHi, <- app_assoc. reflexivity.
Qed.

Lemma references_app (mm1 mm2 : dict (dict nat)) :
  references (mm1 ++ mm2) = references mm1 ++ references mm2.
Proof. unfold references. now rewrite map_app, concat_app. Qed.

Lemma references_set_new (mm : dict (dict nat)) c inner :
  Dict.get mm c = None ->
  references (Dict.set mm c inner) = references mm ++ map snd inner.
Proof.
  intros H. rewrite (dict_set_absent _ _ _ H), references_app.
  unfold references at 2. simpl. now rewrite app_nil_r.
Qed.

Lemma references_set_append (mm : dict (dict nat)) c inner (item : string * nat) :
  Dict.get mm c = Some inner ->
  Permutation (references (Dict.set mm c (inner ++ [item]))) (snd item :: references mm).
Proof.
  induction mm as [|[c' inner'] mm IH]; simpl; [discriminate|].
  destruct (String.eqb c' c).
  - intros H. injection H as ->. unfold references. simpl.
    rewrite map_app. simpl. rewrite <- app_assoc. simpl.
    symmetry. apply Permutation_middle.
  - intros H. unfold references in *. simpl.
    rewrite (IH H). symmetry. apply Permutation_middle.
Qed.

Lemma metric_map_step_keys metric_map ref metric key :
  has_key (metric_map_step metric_map (ref, metric)) key ->
  key = key_of metric \/ has_key metric_map key.
Proof.
  destruct key as [c k]. unfold has_key, metric_map_step, key_of, Dict.mem. cbn [fst snd].
  set (c0 := Str.lower (column_name metric)).
  set (k0 := Str.lower (value_of (metric_type metric))).
  intros (inner & r & Hc & Hk).
  destruct (Dict.get metric_map c0) as [inner0|] eqn:E0; cbn [negb] in Hc.
  - rewrite E0 in Hc.
    destruct (String.eqb_spec c0 c) as [<-|Hne].
    + rewrite dict_get_set_eq in Hc. injection Hc as <-.
      destruct (String.eqb_spec k0 k) as [<-|Hnk]; [now left|].
      rewrite dict_get_set_ne in Hk by assumption. right. eauto.
    + rewrite dict_get_set_ne in Hc by assumption. right. eauto.
  - rewrite dict_get_set_eq in Hc.
    destruct (String.eqb_spec c0 c) as [<-|Hne].
    + rewrite dict_get_set_eq in Hc. injection Hc as <-.
      cbn [Dict.get Dict.set] in Hk.
      destruct (String.eqb_spec k0 k) as [<-|Hnk]; [now left | discriminate Hk].
    + rewrite !dict_get_set_ne in Hc by assumption. right. eauto.
Qed.

Lemma metric_map_step_references metric_map ref metric :
  ~ has_key metric_map (key_of metric) ->
  Permutation (references (metric_map_step metric_map (ref, metric)))
              (ref :: references metric_map).
Proof.
  unfold has_key, metric_map_step, key_of, Dict.mem. cbn [fst snd].
  set (c0 := Str.lower (column_name metric)).
  set (k0 := Str.lower (value_of (metric_type metric))).
  intros Hnew.
  destruct (Dict.get metric_map c0) as [inner0|] eqn:E0; cbn [negb].
  - rewrite E0.
    assert (Hk : Dict.get inner0 k0 = None).
    { destruct (Dict.get inner0 k0) eqn:E; [|reflexivity]. exfalso. apply Hnew. eauto. }
    rewrite (dict_set_absent _ _ _ Hk).
    apply (references_set_append metric_map c0 inner0 (k0, ref) E0).
  - rewrite dict_get_set_eq, dict_set_set, (references_set_new _ _ _ E0).
    simpl. symmetry. apply Permutation_cons_append.
Qed.

Lemma metric_map_references (l : list Metric) : forall start metric_map,
  NoDup (map key_of l) ->
  (forall key, has_key metric_map key -> ~ In key (map key_of l)) ->
  Permutation
    (references (fold_left metric_map_step (combine (seq start (length l)) l) metric_map))
    (references metric_map ++ seq start (length l)).
Proof.
  induction l as [|m l IH]; intros start mm Hnd Hfresh.
  - simpl. now rewrite app_nil_r.
  - cbn [length seq combine fold_left map] in *.
    apply NoDup_cons in Hnd as [Hm Hnd].
    rewrite IH.
    + rewrite metric_map_step_references.
      * simpl. apply Permutation_middle.
      * intros H. apply (Hfresh _ H). now left.
    + exact Hnd.
    + intros key Hkey Hin. apply metric_map_step_keys in Hkey as [->|Hkey].
      * apply Hm. now apply list_elem_of_In.
      * apply (Hfresh _ Hkey). now right.
Qed.

Lemma _metric_map_references (self : MetricCompiler) :
  NoDup (map key_of (metrics self)) ->
  Permutation (flatten (_metric_map self)) (seq 0 (length (metrics self))).
Proof.
  intros Hnd. rewrite flatten_references. unfold _metric_map, enumerate.
  rewrite (metric_map_references (metrics self) 0 [] Hnd); [reflexivity|].
  intros key (inner & r & H & _). discriminate H.
Qed.

(** *** The keys of the metrics of a build *)

Lemma default_for_NoDup (t : ColumnDataType) : NoDup (default_for t).
Proof. destruct t; compute_done. Qed.

Lemma column_metrics_keys (table_name : string) (column : Column) :
  map key_of (column_metrics table_name column)
  = map (fun k => (Str.lower (name column), value_of k)) (default_for (data_type column)).
Proof.
  unfold column_metrics. rewrite map_map. apply map_ext. intros k.
  unfold key_of. cbn [column_name metric_type]. now rewrite lower_value_of.
Qed.

Lemma column_metrics_keys_NoDup (table_name : string) (column : Column) :
  NoDup (map key_of (column_metrics table_name column)).
Proof.
  rewrite column_metrics_keys.
  assert (Hinj : Inj eq eq (fun k => (Str.lower (name column), value_of k))).
  { intros k1 k2 H. injection H as H. now apply value_of_inj. }
  apply (@NoDup_fmap_2 _ _ _ Hinj). apply default_for_NoDup.
Qed.

Lemma built_keys_NoDup (table_name : string) (columns : list Column) :
  NoDup (map (fun column => Str.lower (name column)) columns) ->
  NoDup (map key_of (flat_map (column_metrics table_name) columns)).
Proof.
  induction columns as [|c columns IH]; intros Hnd; simpl; [constructor|].
  cbn [map] in Hnd. apply NoDup_cons in Hnd as [Hc Hnd].
  rewrite map_app. apply NoDup_app. split; [apply column_metrics_keys_NoDup|].
  split; [|exact (IH Hnd)].
  intros key H1 H2. apply Hc.
  apply list_elem_of_In in H1, H2. apply list_elem_of_In.
  rewrite column_metrics_keys in H1. apply in_map_iff in H1 as (k & <- & _).
  apply in_map_iff in H2 as (m & Hk & Hm).
  apply in_flat_map in Hm as (c' & Hc' & Hm).
  unfold column_metrics in Hm. apply in_map_iff in Hm as (k' & <- & _).
  unfold key_of in Hk. cbn [column_name] in Hk. injection Hk as Hk _.
  rewrite <- Hk. apply in_map_iff. now exists c'.
Qed.

Lemma deref_all (self : MetricCompiler) :
  deref self (seq 0 (length (metrics self))) = metrics self.
Proof.
  unfold deref. destruct self as [l]. cbn [metrics].
  enough (H : forall l', omap (fun ref => (l' ++ l) !! ref) (seq (length l') (length l)) = l)
    by apply (H []).
  induction l as [|m l IH]; intros l'; [reflexivity|].
  cbn [length seq omap list_omap].
  rewrite (list_lookup_middle l' l m (length l') eq_refl).
  f_equal. specialize (IH (l' ++ [m])).
  rewrite <- app_assoc, length_app, Nat.add_1_r in IH. exact IH.
Qed.

(** C9 (as stated, refuted). The columns of [status_columns] have
    pairwise distinct lowercased names, yet [interpret_results] gives
    back no metric at all for a row that holds a key decoding to a metric
    that was not compiled, nor for a row without its reserved keys: it
    raises [KeyError], as plain dictionary indexing does. *)
Lemma interpret_results_raises_on_unknown_alias :
  NoDup (map (fun column => Str.lower (name column)) status_columns) /\
  interpret_results status_compiler
    (mkResults [[("WINDOW_START", VStr "2023-01-01T00:00:00");
                 ("WINDOW_END", VStr "2023-01-01T01:00:00");
                 ("ROW_COUNT", VInt 10);
                 ("status__zero_rate", VInt 0)]])
    = Raise (KeyError "zero_rate") /\
  interpret_results status_compiler (mkResults [[("status__completeness", VInt 1)]])
    = Raise (KeyError "WINDOW_START") /\
  ~ (exists self' refs,
       interpret_results status_compiler
         (mkResults [[("WINDOW_START", VStr "2023-01-01T00:00:00");
                      ("WINDOW_END", VStr "2023-01-01T01:00:00");
                      ("ROW_COUNT", VInt 10);
                      ("status__zero_rate", VInt 0)]])
       = Ok (self', refs) /\
       Permutation refs (seq 0 (length (metrics status_compiler)))).
Proof.
  split; [compute_done|].
  assert (H : interpret_results status_compiler
    (mkResults [[("WINDOW_START", VStr "2023-01-01T00:00:00");
                 ("WINDOW_END", VStr "2023-01-01T01:00:00");
                 ("ROW_COUNT", VInt 10);
                 ("status__zero_rate", VInt 0)]])
    = Raise (KeyError "zero_rate")) by (vm_compute; reflexivity).
  split; [exact H|]. split; [vm_compute; reflexivity|].
  intros (self' & refs & H' & _). rewrite H in H'. discriminate H'.
Qed.

(** C9 (amended). When the lowercased names of the columns of a build are
    pairwise distinct, a call of [interpret_results] that returns gives
    back, each once, the references to all the metrics that [build_query]
    created: the objects returned are the metrics of the compiler, as
    many as were built and measuring the same (table, column, kind),
    whatever the rows it accepted hold. *)
Theorem interpret_results_returns_built_metrics (self0 : MetricCompiler)
    (monitor : TableMetricsMonitor) (columns : list Column)
    (self : MetricCompiler) (query : string) (results : Results)
    (self' : MetricCompiler) (refs : list nat) :
  NoDup (map (fun column => Str.lower (name column)) columns) ->
  build_query self0 monitor columns = Ok (self, query) ->
  interpret_results self results = Ok (self', refs) ->
  Permutation refs (seq 0 (length (metrics self))) /\
  Permutation (deref self' refs) (metrics self') /\
  map identity_of (metrics self') = map identity_of (metrics self) /\
  length (deref self' refs) = length (metrics self).
Proof.
  intros Hnd Hb Hi.
  destruct (interpret_results_appends _ _ _ _ Hi) as (-> & appends & Hst & _).
  assert (Hperm : Permutation (flatten (_metric_map self)) (seq 0 (length (metrics self)))).
  { apply _metric_map_references.
    rewrite (build_query_metrics _ _ _ _ _ Hb). now apply built_keys_NoDup. }
  assert (Hlen : length (metrics self') = length (metrics self)).
  { rewrite Hst. apply apply_appends_length. }
  assert (Hd : Permutation (deref self' (flatten (_metric_map self))) (metrics self')).
  { unfold deref at 1. rewrite Hperm, <- Hlen. fold (deref self' (seq 0 (length (metrics self')))).
    now rewrite deref_all. }
  split; [exact Hperm|]. split; [exact Hd|]. split.
  - rewrite Hst. apply apply_appends_identity.
  - rewrite (Permutation_length Hd). exact Hlen.
Qed.

Lemma interpret_results_returns_built_metrics_witness :
  let results := mkResults [status_row (VStr "1.0")] in
  exists self' refs,
    interpret_results status_compiler results = Ok (self', refs) /\
    Permutation refs (seq 0 12) /\
    Permutation (deref self' refs) (metrics self').
Proof.
  intros results.
  assert (Hi : { p | interpret_results status_compiler results = Ok p })
    by (eexists; vm_compute; reflexivity).
  destruct Hi as [[self' refs] Hi].
  assert (Hnd : NoDup (map (fun column => Str.lower (name column)) status_columns))
    by compute_done.
  destruct (interpret_results_returns_built_metrics (mkMetricCompiler []) orders
              status_columns status_compiler status_query results self' refs
              Hnd status_build Hi) as (H1 & H2 & _).
  exists self', refs. auto.
Defined.

(** * Further properties of the module *)

(** ** The alias codec, continued *)

Lemma join_split_go_sep (s : string) :
  (forall cur, Str.join "__" (Str.split_go "__" 0 cur s) = cur +:+ s) /\
  (forall x cur, Str.join "__" (Str.split_go "__" 0 cur (String x s)) = cur +:+ String x s).
Proof.
  assert (Hne : forall cur t, Str.split_go "__" 0 cur t <> []).
  { intros cur t. revert cur. induction t as [|y t IH]; intros cur; [discriminate|].
    cbn [Str.split_go]. destruct (Str.startswith "__" (String y t)); [discriminate | apply IH]. }
  assert (Hjoin : forall p l, l <> [] -> Str.join "__" (p :: l) = p +:+ "__" +:+ Str.join "__" l).
  { intros p [|q l] H; [contradiction | reflexivity]. }
  induction s as [|y s [IH1 IH2]].
  - split; [intros cur; simpl; now rewrite append_empty_r|].
    intros x cur. cbn [Str.split_go Str.startswith]. rewrite andb_false_r.
    reflexivity.
  - split; [apply IH2|].
    intros x cur.
    change (Str.split_go "__" 0 cur (String x (String y s)))
      with (if Str.startswith "__" (String x (String y s))
            then cur :: Str.split_go "__" (String.length "__" - 1) EmptyString (String y s)
            else Str.split_go "__" 0 (cur +:+ String x EmptyString) (String y s)).
    destruct (Str.startswith "__" (String x (String y s))) eqn:E.
    + cbn [Str.startswith] in E. apply andb_true_iff in E as [Ex E].
      apply andb_true_iff in E as [Ey _].
      apply Ascii.eqb_eq in Ex, Ey. subst x y.
      change (Str.join "__" (cur :: Str.split_go "__" 0 EmptyString s)
              = cur +:+ "__" +:+ s).
      rewrite Hjoin by apply Hne. now rewrite IH1.
    + rewrite IH2, append_assoc. reflexivity.
Qed.

Lemma join_split (s : string) : Str.join "__" (Str.split s "__") = s.
Proof. apply (proj1 (join_split_go_sep s) EmptyString). Qed.

(** X1. What [parse_alias] returns is the alias itself in lower case, cut
    at its only separator: the two parts are in lower case and, joined by
    the separator, give the lowercased alias back. *)
Theorem parse_alias_rejoins (a column_name metric_name : string) :
  parse_alias a = Ok (column_name, metric_name) ->
  column_name +:+ "__" +:+ metric_name = Str.lower a /\
  Str.lower column_name = column_name /\
  Str.lower metric_name = metric_name.
Proof.
  rewrite parse_alias_parts.
  destruct (Str.split a "__") as [|p0 [|p1 [|p2 l]]] eqn:E; try discriminate.
  intros H. injection H as <- <-. rewrite !lower_idemp. repeat split.
  pose proof (join_split a) as J. rewrite E in J. cbn [Str.join] in J.
  rewrite <- J. now rewrite !lower_app.
Qed.

Lemma parse_alias_rejoins_witness :
  "status" +:+ "__" +:+ "mean_length" = Str.lower "Status__MEAN_length".
Proof.
  exact (proj1 (parse_alias_rejoins "Status__MEAN_length" "status" "mean_length" eq_refl)).
Defined.

Lemma list_ascii_of_string_app (a b : string) :
  list_ascii_of_string (a +:+ b) = list_ascii_of_string a ++ list_ascii_of_string b.
Proof. induction a as [|x a IH]; simpl; [reflexivity | now rewrite IH]. Qed.

Lemma list_ascii_of_string_inj (a b : string) :
  list_ascii_of_string a = list_ascii_of_string b -> a = b.
Proof.
  intros H. rewrite <- (string_of_list_ascii_of_string a), H.
  apply string_of_list_ascii_of_string.
Qed.

Lemma alias_text_inj (c1 c2 : string) (k1 k2 : MetricType) :
  c1 +:+ "__" +:+ value_of k1 = c2 +:+ "__" +:+ value_of k2 -> c1 = c2 /\ k1 = k2.
Proof.
  intros H. apply (f_equal list_ascii_of_string) in H.
  rewrite !list_ascii_of_string_app in H.
  apply (f_equal (@rev ascii)) in H. rewrite !rev_app_distr in H.
  destruct k1, k2; cbn in H;
    first [ discriminate H
          | split; [|reflexivity];
            apply list_ascii_of_string_inj, rev_inj;
            repeat (injection H as H); exact H ].
Qed.

(** X2. Two metrics have the same alias only if they have the same
    column name and the same kind, whatever the column names are. *)
Theorem alias_of_inj (c1 c2 : string) (k1 k2 : MetricType) :
  alias_of c1 k1 = alias_of c2 k2 -> c1 = c2 /\ k1 = k2.
Proof.
  rewrite !alias_of_eq. intros H. injection H as H. now apply alias_text_inj.
Qed.

Lemma alias_of_inj_witness : "status" = "status" /\ MAX_LENGTH = MAX_LENGTH.
Proof. exact (alias_of_inj "status" "status" MAX_LENGTH MAX_LENGTH eq_refl). Defined.

(** ** Rendering, continued *)

(** X3. The expression of a kind is a fixed text with the column name put
    in verbatim at one place: rendering never raises, whatever the column
    name holds (braces included), and the doubled braces of the UUID
    template come out single. *)
Theorem formatted_sql_substitutes_once (metric_type : MetricType) (c : string) :
  formatted_sql metric_type c =
    Ok (fst (expression_parts metric_type) +:+ c +:+ snd (expression_parts metric_type)) /\
  formatted_sql TEXT_UUID_RATE c =
    Ok ("SUM(IFF(REGEXP_COUNT(TO_VARCHAR(" +:+ c +:+
        "), '^([0-9a-fA-F]{8}-[0-9a-fA-F]{4}-[0-9a-fA-F]{4}-[0-9a-fA-F]{4}-[0-9a-fA-F]{12})$', 1, 'i') != 0, 1, 0)) / CAST(COUNT(*) AS NUMERIC)").
Proof. split; [destruct metric_type; reflexivity | reflexivity]. Qed.

Lemma METRIC_COLUMN_format (expression a : string) :
  Str.format METRIC_COLUMN [] [("sql", expression); ("alias", a)]
  = Ok (expression +:+ " AS " +:+ a).
Proof. unfold Str.format. simpl. now rewrite append_empty_r. Qed.

Lemma formatted_sql_returns (metric_type : MetricType) (c : string) :
  exists expression, formatted_sql metric_type c = Ok expression.
Proof. destruct metric_type; eexists; reflexivity. Qed.

(** X4. [Metric.sql] never raises: for every metric it is the expression
    of the metric's kind for its column, followed by [ AS ] and the
    metric's alias. *)
Theorem sql_renders_expression_as_alias (metric : Metric) :
  exists expression,
    formatted_sql (metric_type metric) (column_name metric) = Ok expression /\
    sql metric =
      Ok (expression +:+ " AS " +:+ column_name metric +:+ "__"
          +:+ value_of (metric_type metric)).
Proof.
  destruct (formatted_sql_returns (metric_type metric) (column_name metric)) as [e He].
  exists e. split; [exact He|].
  unfold sql, alias. rewrite He, alias_of_eq. cbn [mbind result_bind].
  apply METRIC_COLUMN_format.
Qed.

(** X5. Every kind has a template (the last branch of the dispatch is
    never taken), and two different kinds share a template in two cases
    only: [ZERO_RATE] with [TEXT_NULL_KEYWORD_RATE], and [NUMERIC_MIN]
    with [NUMERIC_MEAN]. *)
Theorem _retrieve_unformatted_sql_collisions (k1 k2 : MetricType) :
  returns (_retrieve_unformatted_sql k1) = true /\
  (_retrieve_unformatted_sql k1 = _retrieve_unformatted_sql k2 <->
   k1 = k2 \/
   (k1 = ZERO_RATE /\ k2 = TEXT_NULL_KEYWORD_RATE) \/
   (k1 = TEXT_NULL_KEYWORD_RATE /\ k2 = ZERO_RATE) \/
   (k1 = NUMERIC_MIN /\ k2 = NUMERIC_MEAN) \/
   (k1 = NUMERIC_MEAN /\ k2 = NUMERIC_MIN)).
Proof.
  split; [destruct k1; reflexivity|].
  destruct k1, k2; split; intros H;
    solve [ reflexivity | discriminate H | auto 10 | intuition discriminate ].
Qed.

(** ** The catalogue, continued *)

(** X6. [MetricType.all] holds every kind once and no two kinds have the
    same value string; every kind is a default kind of a text or of an
    integer column, and the kinds that are both are [COMPLETENESS] and
    [APPROX_DISTINCTNESS]. *)
Theorem MetricType_all_partition (k : MetricType) :
  In k MetricType_all /\
  NoDup MetricType_all /\
  NoDup (map value_of MetricType_all) /\
  (In k (default_for STRING) \/ In k (default_for INTEGER)) /\
  (In k (default_for STRING) /\ In k (default_for INTEGER) <->
   k = COMPLETENESS \/ k = APPROX_DISTINCTNESS).
Proof.
  split; [destruct k; simpl; tauto|].
  split; [compute_done|]. split; [compute_done|].
  split; [destruct k; simpl; tauto|].
  destruct k; simpl; split; intros H;
    solve [ tauto | intuition discriminate ].
Qed.

(** ** build_query, continued *)

Lemma built_pairs_NoDup (table_name : string) (columns : list Column) :
  NoDup (map name columns) ->
  NoDup (map (fun metric => (column_name metric, metric_type metric))
             (flat_map (column_metrics table_name) columns)).
Proof.
  induction columns as [|c columns IH]; intros Hnd; simpl; [constructor|].
  cbn [map] in Hnd. apply NoDup_cons in Hnd as [Hc Hnd].
  rewrite map_app. apply NoDup_app. split; [|split; [|exact (IH Hnd)]].
  - unfold column_metrics. rewrite map_map. cbn [column_name metric_type].
    assert (Hinj : Inj eq eq (fun k : MetricType => (name c, k))).
    { intros k1 k2 H. now injection H. }
    apply (@NoDup_fmap_2 _ _ _ Hinj), default_for_NoDup.
  - intros pair H1 H2. apply Hc.
    apply list_elem_of_In in H1, H2. apply list_elem_of_In.
    apply in_map_iff in H1 as (m1 & <- & Hm1).
    unfold column_metrics in Hm1. apply in_map_iff in Hm1 as (k & <- & _).
    apply in_map_iff in H2 as (m2 & Hk & Hm2).
    apply in_flat_map in Hm2 as (c' & Hc' & Hm2).
    unfold column_metrics in Hm2. apply in_map_iff in Hm2 as (k' & <- & _).
    cbn [column_name metric_type] in Hk. injection Hk as Hk _.
    rewrite <- Hk. apply in_map_iff. now exists c'.
Qed.

(** X7. When the names of the columns are pairwise distinct, the aliases
    of the metrics that [build_query] creates are pairwise distinct: the
    query never gives one alias to two expressions. *)
Theorem build_query_aliases_distinct (self0 : MetricCompiler)
    (monitor : TableMetricsMonitor) (columns : list Column)
    (self : MetricCompiler) (query : string) :
  NoDup (map name columns) ->
  build_query self0 monitor columns = Ok (self, query) ->
  exists aliases,
    map_result alias (metrics self) = Ok aliases /\
    length aliases = length (metrics self) /\
    NoDup aliases.
Proof.
  intros Hnd Hb. rewrite (build_query_metrics _ _ _ _ _ Hb).
  set (ms := flat_map (column_metrics (table monitor)) columns).
  exists (map (fun pair => fst pair +:+ "__" +:+ value_of (snd pair))
              (map (fun metric => (column_name metric, metric_type metric)) ms)).
  split; [|split].
  - clear. induction ms as [|m ms IH]; [reflexivity|].
    cbn [map_result map fst snd].
    change (alias m) with (alias_of (column_name m) (metric_type m)).
    rewrite alias_of_eq, IH. reflexivity.
  - now rewrite !length_map.
  - assert (Hinj : Inj eq eq
              (fun pair : string * MetricType => fst pair +:+ "__" +:+ value_of (snd pair))).
    { intros [c1 k1] [c2 k2] H. cbn [fst snd] in H.
      apply alias_text_inj in H as [-> ->]. reflexivity. }
    apply (@NoDup_fmap_2 _ _ _ Hinj). now apply built_pairs_NoDup.
Qed.

Lemma build_query_aliases_distinct_witness :
  exists aliases,
    map_result alias (metrics status_compiler) = Ok aliases /\
    length aliases = length (metrics status_compiler) /\
    NoDup aliases.
Proof.
  apply (build_query_aliases_distinct (mkMetricCompiler []) orders status_columns
           status_compiler status_query).
  - compute_done.
  - exact status_build.
Defined.

(** X8. [build_query] creates twelve metrics for each text column, eight
    for each integer column and none for a column of another type. *)
Theorem build_query_metric_count (self0 : MetricCompiler)
    (monitor : TableMetricsMonitor) (columns : list Column)
    (self : MetricCompiler) (query : string) :
  build_query self0 monitor columns = Ok (self, query) ->
  length (metrics self) =
    (12 * length (List.filter (fun c => bool_decide (data_type c = STRING)) columns)
     + 8 * length (List.filter (fun c => bool_decide (data_type c = INTEGER)) columns))%nat.
Proof.
  intros Hb. rewrite (build_query_metrics _ _ _ _ _ Hb). clear.
  induction columns as [|c columns IH]; [reflexivity|].
  cbn [flat_map List.filter]. rewrite length_app, IH.
  unfold column_metrics. rewrite length_map.
  destruct c as [n []]; cbn [data_type bool_decide decide_rel]; simpl; lia.
Qed.

Lemma build_query_metric_count_witness : length (metrics status_compiler) = 12%nat.
Proof.
  exact (build_query_metric_count (mkMetricCompiler []) orders status_columns
           status_compiler status_query status_build).
Defined.

(** ** _columns_to_metrics *)

Lemma parse_alias_alias_text (c : string) (k : MetricType) :
  Str.contains "__" c = false ->
  Str.ends_with_char "_" c = false ->
  parse_alias (c +:+ "__" +:+ value_of k) = Ok (Str.lower c, value_of k).
Proof.
  intros Hc He. rewrite parse_alias_parts. unfold Str.split.
  rewrite (split_go_one_sep c (value_of k) EmptyString Hc He (value_of_no_sep k)).
  change (EmptyString +:+ c) with c. now rewrite lower_value_of.
Qed.

Lemma contains_sep_app (a b : string) :
  Str.contains "__" b = true -> Str.contains "__" (a +:+ b) = true.
Proof.
  intros H. induction a as [|x a IH]; [exact H|].
  change (String x a +:+ b) with (String x (a +:+ b)).
  cbn [Str.contains]. rewrite IH. apply orb_true_r.
Qed.

(** A name with a separator is not reserved. *)
Lemma separator_not_special (s : string) :
  Str.contains "__" s = true -> str_in (Str.lower s) SPECIAL_KEYS = false.
Proof.
  intros H. rewrite <- contains_sep_lower in H.
  unfold str_in, SPECIAL_KEYS. cbn [existsb].
  repeat match goal with
  | |- context [String.eqb ?x ?y] =>
      destruct (String.eqb_spec x y) as [E|_]; [rewrite E in H; discriminate H|]
  end.
  reflexivity.
Qed.

Lemma _columns_to_metrics_cons (column : Column) (columns : list Column) :
  _columns_to_metrics (column :: columns) =
  if _remove_special_keys column
  then pair ← parse_alias (name column);
       pairs ← _columns_to_metrics columns;
       Ok (pair :: pairs)
  else _columns_to_metrics columns.
Proof.
  unfold _columns_to_metrics. cbn [List.filter].
  destruct (_remove_special_keys column); reflexivity.
Qed.

(** X9. [_columns_to_metrics] accepts a column list if and only if the
    name of every column that is not reserved splits into exactly two
    parts; a column whose lowercased name is [window_start], [window_end]
    or [row_count] is passed over, and the list returned has one pair for
    each of the other columns. *)
Theorem _columns_to_metrics_accepts (columns : list Column) :
  (returns (_columns_to_metrics columns) = true <->
   Forall (fun column =>
             _remove_special_keys column = true ->
             length (Str.split (name column) "__") = 2%nat) columns) /\
  (forall pairs, _columns_to_metrics columns = Ok pairs ->
     length pairs = length (List.filter _remove_special_keys columns)).
Proof.
  induction columns as [|c columns [IH1 IH2]].
  - split; [split; [constructor | reflexivity] | intros pairs H; now injection H as <-].
  - rewrite _columns_to_metrics_cons. cbn [List.filter].
    destruct (_remove_special_keys c) eqn:Ec.
    + rewrite parse_alias_parts.
      destruct (Str.split (name c) "__") as [|p0 [|p1 [|p2 l]]] eqn:Es;
        cbn [mbind result_bind returns].
      1,2,4: split; [split; [discriminate | intros H; apply Forall_cons_1 in H as [H _];
                      rewrite Es in H; specialize (H Ec); discriminate H]
                    | discriminate].
      destruct (_columns_to_metrics columns) as [pairs|e]; cbn [mbind result_bind returns] in *.
      * split.
        -- split; [intros _|reflexivity]. constructor; [intros _; now rewrite Es|].
           now apply IH1.
        -- intros ps H. injection H as <-. cbn [length]. f_equal. now apply IH2.
      * split; [|discriminate]. split; [discriminate|].
        intros H. apply Forall_cons_1 in H as [_ H]. now apply IH1 in H.
    + destruct IH1 as [IHa IHb]. split; [|exact IH2]. split.
      * intros H. constructor; [intros E; congruence | now apply IHa].
      * intros H. apply Forall_cons_1 in H as [_ H]. now apply IHb.
Qed.

Lemma _columns_to_metrics_accepts_witness :
  returns (_columns_to_metrics
             [mkColumn "WINDOW_START" STRING; mkColumn "status__completeness" INTEGER])
  = true.
Proof.
  apply (proj1 (_columns_to_metrics_accepts _)).
  constructor; [intros E; vm_compute in E; discriminate E|].
  constructor; [intros _; reflexivity | constructor].
Defined.

(** X10. For a build over columns whose names hold no separator and do
    not end with an underscore, [_columns_to_metrics] applied to the
    columns of the result (the three reserved ones and one per alias)
    gives, in order, the lowercased column name and the kind value of
    every metric of the build. *)
Theorem _columns_to_metrics_of_build (self0 : MetricCompiler)
    (monitor : TableMetricsMonitor) (columns : list Column)
    (self : MetricCompiler) (query : string)
    (aliases : list string) (result_columns : list Column) :
  Forall (fun column => Str.contains "__" (name column) = false /\
                        Str.ends_with_char "_" (name column) = false) columns ->
  build_query self0 monitor columns = Ok (self, query) ->
  map_result alias (metrics self) = Ok aliases ->
  map name result_columns = ["WINDOW_START"; "WINDOW_END"; "ROW_COUNT"] ++ aliases ->
  _columns_to_metrics result_columns =
    Ok (map (fun metric => (Str.lower (column_name metric), value_of (metric_type metric)))
            (metrics self)).
Proof.
  intros Hwf Hb Ha Hn. rewrite (build_query_metrics _ _ _ _ _ Hb) in *.
  set (ms := flat_map (column_metrics (table monitor)) columns) in *.
  assert (Hms : Forall (fun m => Str.contains "__" (column_name m) = false /\
                                 Str.ends_with_char "_" (column_name m) = false) ms).
  { apply Forall_forall. intros m Hm. apply list_elem_of_In in Hm.
    apply in_flat_map in Hm as (c & Hc & Hm).
    unfold column_metrics in Hm. apply in_map_iff in Hm as (k & <- & _).
    rewrite Forall_forall in Hwf. apply Hwf. now apply list_elem_of_In. }
  clearbody ms. clear Hwf Hb.
  destruct result_columns as [|r1 [|r2 [|r3 rest]]]; try discriminate Hn.
  cbn [map app] in Hn. injection Hn as H1 H2 H3 Hn.
  assert (R1 : _remove_special_keys r1 = false)
    by (unfold _remove_special_keys; rewrite H1; reflexivity).
  assert (R2 : _remove_special_keys r2 = false)
    by (unfold _remove_special_keys; rewrite H2; reflexivity).
  assert (R3 : _remove_special_keys r3 = false)
    by (unfold _remove_special_keys; rewrite H3; reflexivity).
  rewrite _columns_to_metrics_cons, R1, _columns_to_metrics_cons, R2,
    _columns_to_metrics_cons, R3.
  clear r1 r2 r3 H1 H2 H3 R1 R2 R3.
  revert aliases rest Ha Hn. induction Hms as [|m ms [Hc He] _ IH]; intros aliases rest Ha Hn.
  - injection Ha as <-. destruct rest; [reflexivity | discriminate Hn].
  - cbn [map_result] in Ha.
    change (alias m) with (alias_of (column_name m) (metric_type m)) in Ha.
    rewrite alias_of_eq in Ha. cbn [mbind result_bind] in Ha.
    destruct (map_result alias ms) as [as'|e] eqn:Ea; [|discriminate Ha].
    injection Ha as <-. destruct rest as [|r rest]; [discriminate Hn|].
    cbn [map] in Hn. injection Hn as Hr Hn.
    rewrite _columns_to_metrics_cons. unfold _remove_special_keys. rewrite Hr.
    rewrite separator_not_special
      by (apply contains_sep_app; destruct (metric_type m); reflexivity).
    cbn [negb].
    change (column_name m +:+ String "_" (String "_" (value_of (metric_type m))))
      with (column_name m +:+ "__" +:+ value_of (metric_type m)).
    rewrite (parse_alias_alias_text _ _ Hc He).
    cbn [mbind result_bind]. rewrite (IH as' rest eq_refl Hn). reflexivity.
Qed.

Lemma _columns_to_metrics_of_build_witness :
  exists aliases,
    map_result alias (metrics status_compiler) = Ok aliases /\
    _columns_to_metrics
      (map (fun n => mkColumn n STRING) (["WINDOW_START"; "WINDOW_END"; "ROW_COUNT"] ++ aliases))
    = Ok (map (fun metric => (Str.lower (column_name metric), value_of (metric_type metric)))
              (metrics status_compiler)).
Proof.
  assert (Ha : { aliases | map_result alias (metrics status_compiler) = Ok aliases })
    by (eexists; vm_compute; reflexivity).
  destruct Ha as [aliases Ha]. exists aliases. split; [exact Ha|].
  apply (_columns_to_metrics_of_build (mkMetricCompiler []) orders status_columns
           status_compiler status_query aliases).
  - repeat constructor.
  - exact status_build.
  - exact Ha.
  - rewrite map_map. cbn [name]. apply map_id.
Defined.

(** ** nonnull_values, continued *)

Lemma coerce_point_idemp (point : MetricDataPoint) :
  coerce_point (coerce_point point) = coerce_point point.
Proof.
  unfold coerce_point at 2 3. destruct (float (value point)) as [f|e] eqn:E.
  - reflexivity.
  - unfold coerce_point. now rewrite E.
Qed.

Lemma coerce_points_idemp (points : list MetricDataPoint) :
  coerce_points (coerce_points points) = coerce_points points.
Proof.
  induction points as [|p l IH]; [reflexivity|].
  cbn [coerce_points]. now rewrite coerce_point_idemp, IH.
Qed.

(** X11. A second call of [nonnull_values] changes nothing and returns
    the same points as the first. *)
Theorem nonnull_values_idempotent (self : Metric) :
  nonnull_values (fst (nonnull_values self)) = nonnull_values self.
Proof.
  unfold nonnull_values. cbn [fst values table_name column_name metric_type].
  now rewrite coerce_points_idemp.
Qed.

(** X12. [nonnull_values] returns a point exactly when its value was not
    [None] before the call: the points returned are, in order, the
    points of the metric that held a value, each after its coercion. A
    value that does not coerce (a text that is no number) is returned as
    it is. *)
Theorem nonnull_values_keeps_values (self : Metric) :
  snd (nonnull_values self) =
    map coerce_point (List.filter (fun point => ne_None (value point)) (values self)) /\
  length (snd (nonnull_values self)) =
    length (List.filter (fun point => ne_None (value point)) (values self)).
Proof.
  assert (H : snd (nonnull_values self) =
    map coerce_point (List.filter (fun point => ne_None (value point)) (values self))).
  { unfold nonnull_values. cbn [snd values]. rewrite coerce_points_map.
    induction (values self) as [|p l IH]; [reflexivity|].
    cbn [map List.filter]. rewrite coerce_point_ne_None, IH.
    destruct (ne_None (value p)); reflexivity. }
  split; [exact H | now rewrite H, length_map].
Qed.

(** ** interpret_results, continued *)

(** X13. [interpret_results] only appends: when it returns, the compiler
    has the same metrics, each measuring what it measured, and the value
    sequence of each begins with the points it had before the call. *)
Theorem interpret_results_append_only (self : MetricCompiler) (results : Results)
    (self' : MetricCompiler) (refs : list nat) :
  interpret_results self results = Ok (self', refs) ->
  length (metrics self') = length (metrics self) /\
  forall ref metric, metrics self !! ref = Some metric ->
    exists metric' added,
      metrics self' !! ref = Some metric' /\
      identity_of metric' = identity_of metric /\
      values metric' = values metric ++ added.
Proof.
  intros Hi. destruct (interpret_results_appends _ _ _ _ Hi) as (_ & appends & Hst & _).
  rewrite Hst. split; [apply apply_appends_length|].
  intros ref metric H.
  destruct (apply_appends_lookup appends _ ref metric H) as (m' & H1 & H2 & H3).
  exists m', (points_for ref appends). auto.
Qed.

Lemma interpret_results_append_only_witness :
  let results := mkResults [status_row (VStr "1.0")] in
  exists self' refs,
    interpret_results status_compiler results = Ok (self', refs) /\
    length (metrics self') = length (metrics status_compiler).
Proof.
  intros results.
  assert (Hi : { p | interpret_results status_compiler results = Ok p })
    by (eexists; vm_compute; reflexivity).
  destruct Hi as [[self' refs] Hi]. exists self', refs. split; [exact Hi|].
  exact (proj1 (interpret_results_append_only status_compiler results self' refs Hi)).
Defined.

(** *** The references of the lookup table *)

Lemma metric_map_step_refs metric_map ref0 metric key ref :
  has_ref (metric_map_step metric_map (ref0, metric)) key ref ->
  (key = key_of metric /\ ref = ref0) \/ has_ref metric_map key ref.
Proof.
  destruct key as [c k]. unfold has_ref, metric_map_step, key_of, Dict.mem. cbn [fst snd].
  set (c0 := Str.lower (column_name metric)).
  set (k0 := Str.lower (value_of (metric_type metric))).
  intros (inner & Hc & Hk).
  destruct (Dict.get metric_map c0) as [inner0|] eqn:E0; cbn [negb] in Hc.
  - rewrite E0 in Hc.
    destruct (String.eqb_spec c0 c) as [<-|Hne].
    + rewrite dict_get_set_eq in Hc. injection Hc as <-.
      destruct (String.eqb_spec k0 k) as [<-|Hnk].
      * rewrite dict_get_set_eq in Hk. injection Hk as <-. now left.
      * rewrite dict_get_set_ne in Hk by assumption. right. eauto.
    + rewrite dict_get_set_ne in Hc by assumption. right. eauto.
  - rewrite dict_get_set_eq in Hc.
    destruct (String.eqb_spec c0 c) as [<-|Hne].
    + rewrite dict_get_set_eq in Hc. injection Hc as <-.
      cbn [Dict.get Dict.set] in Hk.
      destruct (String.eqb_spec k0 k) as [<-|Hnk]; [|discriminate Hk].
      injection Hk as <-. now left.
    + rewrite !dict_get_set_ne in Hc by assumption. right. eauto.
Qed.

Lemma metric_map_step_same metric_map ref metric :
  has_ref (metric_map_step metric_map (ref, metric)) (key_of metric) ref.
Proof.
  unfold has_ref, metric_map_step, key_of, Dict.mem. cbn [fst snd].
  set (c0 := Str.lower (column_name metric)).
  set (k0 := Str.lower (value_of (metric_type metric))).
  destruct (Dict.get metric_map c0) as [inner0|] eqn:E0; cbn [negb].
  - rewrite E0. eexists. rewrite !dict_get_set_eq. split; reflexivity.
  - rewrite dict_get_set_eq. eexists. rewrite !dict_get_set_eq. split; reflexivity.
Qed.

Lemma metric_map_step_other metric_map ref0 metric key ref :
  key <> key_of metric ->
  has_ref metric_map key ref ->
  has_ref (metric_map_step metric_map (ref0, metric)) key ref.
Proof.
  destruct key as [c k]. unfold has_ref, metric_map_step, key_of, Dict.mem. cbn [fst snd].
  set (c0 := Str.lower (column_name metric)).
  set (k0 := Str.lower (value_of (metric_type metric))).
  intros Hne (inner & Hc & Hk).
  destruct (Dict.get metric_map c0) as [inner0|] eqn:E0; cbn [negb].
  - rewrite E0. destruct (String.eqb_spec c0 c) as [<-|Hnc].
    + rewrite Hc in E0. injection E0 as <-.
      eexists. rewrite dict_get_set_eq. split; [reflexivity|].
      rewrite dict_get_set_ne; [exact Hk | congruence].
    + exists inner. now rewrite dict_get_set_ne.
  - rewrite dict_get_set_eq.
    destruct (String.eqb_spec c0 c) as [<-|Hnc]; [congruence|].
    exists inner. now rewrite !dict_get_set_ne.
Qed.

Lemma metric_map_refs_bounded (l : list Metric) : forall start metric_map,
  (forall key ref, has_ref metric_map key ref -> ref < start) ->
  forall key ref,
    has_ref (fold_left metric_map_step (combine (seq start (length l)) l) metric_map) key ref ->
    ref < start + length l.
Proof.
  induction l as [|m l IH]; intros start mm Hb key ref H.
  - simpl in H. apply Hb in H. lia.
  - cbn [length seq combine fold_left] in H.
    apply IH in H; [cbn [length]; lia|].
    intros key' ref' H'. apply metric_map_step_refs in H' as [[_ ->]|H']; [lia|].
    apply Hb in H'. lia.
Qed.

Lemma _metric_map_refs_bounded (self : MetricCompiler) key ref :
  has_ref (_metric_map self) key ref -> ref < length (metrics self).
Proof.
  intros H. apply (metric_map_refs_bounded (metrics self) 0 [] ) in H; [exact H|].
  intros key' ref' (inner & H' & _). discriminate H'.
Qed.

Lemma metric_map_keeps (l : list Metric) : forall start metric_map key ref,
  ~ In key (map key_of l) ->
  has_ref metric_map key ref ->
  has_ref (fold_left metric_map_step (combine (seq start (length l)) l) metric_map) key ref.
Proof.
  induction l as [|m l IH]; intros start mm key ref Hn H; [exact H|].
  cbn [length seq combine fold_left]. apply IH.
  - intros Hin. apply Hn. now right.
  - apply metric_map_step_other; [|exact H]. intros ->. apply Hn. now left.
Qed.

Lemma metric_map_lookup (l : list Metric) : forall start metric_map i metric,
  NoDup (map key_of l) ->
  l !! i = Some metric ->
  has_ref (fold_left metric_map_step (combine (seq start (length l)) l) metric_map)
          (key_of metric) (start + i).
Proof.
  induction l as [|m l IH]; intros start mm i metric Hnd Hi; [discriminate Hi|].
  cbn [map] in Hnd. apply NoDup_cons in Hnd as [Hm Hnd].
  cbn [length seq combine fold_left]. destruct i as [|i].
  - injection Hi as <-. rewrite Nat.add_0_r. apply metric_map_keeps.
    + intros Hin. apply Hm. now apply list_elem_of_In.
    + apply metric_map_step_same.
  - replace (start + S i) with (S start + i) by lia. now apply IH.
Qed.

Lemma _metric_map_lookup (self : MetricCompiler) ref metric :
  NoDup (map key_of (metrics self)) ->
  metrics self !! ref = Some metric ->
  has_ref (_metric_map self) (key_of metric) ref.
Proof. intros Hnd H. apply (metric_map_lookup (metrics self) 0 [] ref metric Hnd H). Qed.

(** *** Counting the points *)

Lemma total_points_alter (point : MetricDataPoint) (store : list Metric) : forall ref,
  ref < length store ->
  total_points (alter (append_value point) ref store) = S (total_points store).
Proof.
  unfold total_points.
  induction store as [|m store IH]; intros ref H; [simpl in H; lia|].
  destruct ref as [|ref].
  - change (alter (append_value point) 0 (m :: store))
      with (append_value point m :: store).
    cbn [map list_sum fold_right append_value values]. rewrite length_app. simpl. lia.
  - change (alter (append_value point) (S ref) (m :: store))
      with (m :: alter (append_value point) ref store).
    cbn [map list_sum fold_right].
    change (fold_right Nat.add 0 ?l) with (list_sum l).
    rewrite IH by (simpl in H; lia). lia.
Qed.

Section Counting.
Variable metric_map : dict (dict nat).
Variable n : nat.
Hypothesis bounded : forall key ref, has_ref metric_map key ref -> ref < n.

Lemma interpret_cell_count window_start window_end row store alias store' :
  length store = n ->
  interpret_cell metric_map window_start window_end row store alias = Ok store' ->
  length store' = n /\
  total_points store' =
    total_points store + (if Str.contains "__" alias then 1 else 0).
Proof.
  intros Hn. unfold interpret_cell. destruct (Str.contains "__" alias); cbn [negb].
  2: { intros H. injection H as <-. split; [exact Hn | lia]. }
  destruct (parse_alias alias) as [[c k]|e]; [|discriminate].
  cbn [mbind result_bind]. unfold Dict.getitem.
  destruct (Dict.get metric_map c) as [inner|] eqn:Ec; [|discriminate].
  cbn [mbind result_bind].
  destruct (Dict.get inner k) as [ref|] eqn:Ek; [|discriminate].
  cbn [mbind result_bind].
  destruct (Dict.get row alias) as [cell|]; [|discriminate].
  cbn [mbind result_bind].
  assert (Hr : ref < length store).
  { rewrite Hn. apply (bounded (c, k)). now exists inner. }
  destruct (float cell) as [f|[]]; cbn [mbind result_bind]; intros H;
    try discriminate H; injection H as <-;
    (split; [now rewrite length_alter | rewrite total_points_alter by exact Hr; lia]).
Qed.

Lemma interpret_keys_count window_start window_end row keys : forall store store',
  length store = n ->
  for_each (interpret_cell metric_map window_start window_end row) keys store = Ok store' ->
  length store' = n /\
  total_points store' =
    total_points store + length (List.filter (Str.contains "__") keys).
Proof.
  induction keys as [|alias keys IH]; intros store store' Hn H.
  - injection H as <-. split; [exact Hn | simpl; lia].
  - cbn [for_each] in H.
    destruct (interpret_cell metric_map window_start window_end row store alias)
      as [store1|e] eqn:E; [|discriminate H].
    cbn [mbind result_bind] in H.
    destruct (interpret_cell_count _ _ _ _ _ _ Hn E) as [Hn1 Ht1].
    destruct (IH _ _ Hn1 H) as [Hn2 Ht2].
    split; [exact Hn2|]. rewrite Ht2, Ht1. cbn [List.filter].
    destruct (Str.contains "__" alias); simpl; lia.
Qed.

Lemma interpret_rows_count (row_list : list Row) : forall store store',
  length store = n ->
  for_each (interpret_row metric_map) row_list store = Ok store' ->
  length store' = n /\
  total_points store' = total_points store + metric_cells (mkResults row_list).
Proof.
  unfold metric_cells. cbn [rows].
  induction row_list as [|row row_list IH]; intros store store' Hn H.
  - injection H as <-. split; [exact Hn | simpl; lia].
  - cbn [for_each] in H.
    destruct (interpret_row metric_map store row) as [store1|e] eqn:E; [|discriminate H].
    cbn [mbind result_bind] in H. unfold interpret_row in E.
    destruct (Dict.getitem row "WINDOW_START") as [ws|]; [|discriminate E].
    destruct (Dict.getitem row "WINDOW_END") as [we|]; [|discriminate E].
    destruct (Dict.getitem row "ROW_COUNT") as [rc|]; [|discriminate E].
    cbn [mbind result_bind] in E.
    destruct (interpret_keys_count _ _ _ _ _ _ Hn E) as [Hn1 Ht1].
    destruct (IH _ _ Hn1 H) as [Hn2 Ht2].
    split; [exact Hn2|]. rewrite Ht2, Ht1. simpl. lia.
Qed.

End Counting.

(** X14. Every cell of the rows that stands under a key with the
    separator gives one data point: when [interpret_results] returns,
    the metrics hold as many more points as there are such cells. *)
Theorem interpret_results_one_point_per_cell (self : MetricCompiler) (results : Results)
    (self' : MetricCompiler) (refs : list nat) :
  interpret_results self results = Ok (self', refs) ->
  total_points (metrics self') = total_points (metrics self) + metric_cells results.
Proof.
  unfold interpret_results. intros H.
  destruct (for_each (interpret_row (_metric_map self)) (rows results) (metrics self))
    as [store|e] eqn:E; [|discriminate H].
  injection H as <- _. cbn [metrics]. destruct results as [rows].
  apply (interpret_rows_count (_metric_map self) (length (metrics self))
           (_metric_map_refs_bounded self) rows (metrics self) store eq_refl E).
Qed.

Lemma interpret_results_one_point_per_cell_witness :
  let results := mkResults [status_row (VStr "1.0"); status_row VNone] in
  exists self' refs,
    interpret_results status_compiler results = Ok (self', refs) /\
    total_points (metrics self') = 2.
Proof.
  intros results.
  assert (Hi : { p | interpret_results status_compiler results = Ok p })
    by (eexists; vm_compute; reflexivity).
  destruct Hi as [[self' refs] Hi]. exists self', refs. split; [exact Hi|].
  exact (interpret_results_one_point_per_cell status_compiler results self' refs Hi).
Defined.

(** *** What a result set must hold to be accepted *)

Lemma for_each_Ok_inv {S X : Type} (body : S -> X -> result S) (items : list X) :
  forall s s', for_each body items s = Ok s' ->
  forall x, In x items -> exists s1 s2, body s1 x = Ok s2.
Proof.
  induction items as [|y items IH]; intros s s' H x Hx; [contradiction|].
  cbn [for_each] in H. destruct (body s y) as [s1|e] eqn:E; [|discriminate H].
  cbn [mbind result_bind] in H. destruct Hx as [->|Hx]; [eauto | eapply IH; eauto].
Qed.

(** X15. [interpret_results] returns only if every row has the three
    reserved keys and every key with the separator decodes to a metric
    of the lookup table, over a cell that [float] accepts or rejects with
    [TypeError]: one malformed or unknown alias, or one cell of text that
    is no number, makes the whole call raise. *)
Theorem interpret_results_accepts_only (self : MetricCompiler) (results : Results)
    (self' : MetricCompiler) (refs : list nat) :
  interpret_results self results = Ok (self', refs) ->
  forall row, In row (rows results) ->
    Dict.mem "WINDOW_START" row = true /\
    Dict.mem "WINDOW_END" row = true /\
    Dict.mem "ROW_COUNT" row = true /\
    forall alias, In alias (Dict.keys row) -> Str.contains "__" alias = true ->
      exists key ref cell,
        parse_alias alias = Ok key /\
        has_ref (_metric_map self) key ref /\
        Dict.get row alias = Some cell /\
        (returns (float cell) = true \/ float cell = Raise TypeError).
Proof.
  unfold interpret_results. intros H row Hrow.
  destruct (for_each (interpret_row (_metric_map self)) (rows results) (metrics self))
    as [store|e] eqn:E; [|discriminate H].
  destruct (for_each_Ok_inv _ _ _ _ E row Hrow) as (s1 & s2 & Hr).
  unfold interpret_row, Dict.getitem, Dict.mem in *.
  destruct (Dict.get row "WINDOW_START") as [ws|]; [|discriminate Hr].
  destruct (Dict.get row "WINDOW_END") as [we|]; [|discriminate Hr].
  destruct (Dict.get row "ROW_COUNT") as [rc|]; [|discriminate Hr].
  cbn [mbind result_bind] in Hr. repeat split.
  intros alias Ha Hsep.
  destruct (for_each_Ok_inv _ _ _ _ Hr alias Ha) as (t1 & t2 & Hc).
  unfold interpret_cell in Hc. rewrite Hsep in Hc. cbn [negb] in Hc.
  destruct (parse_alias alias) as [[c k]|]; [|discriminate Hc].
  cbn [mbind result_bind] in Hc. unfold Dict.getitem in Hc.
  destruct (Dict.get (_metric_map self) c) as [inner|] eqn:Ec; [|discriminate Hc].
  cbn [mbind result_bind] in Hc.
  destruct (Dict.get inner k) as [ref|] eqn:Ek; [|discriminate Hc].
  cbn [mbind result_bind] in Hc.
  destruct (Dict.get row alias) as [cell|]; [|discriminate Hc].
  cbn [mbind result_bind] in Hc.
  exists (c, k), ref, cell. split; [reflexivity|]. split; [now exists inner|].
  split; [reflexivity|].
  destruct (float cell) as [f|[]]; cbn [mbind result_bind] in Hc;
    try discriminate Hc; auto.
Qed.

Lemma interpret_results_accepts_only_witness :
  let results := mkResults [status_row (VStr "1.0")] in
  Dict.mem "ROW_COUNT" (status_row (VStr "1.0")) = true.
Proof.
  intros results.
  assert (Hi : { p | interpret_results status_compiler results = Ok p })
    by (eexists; vm_compute; reflexivity).
  destruct Hi as [[self' refs] Hi].
  exact (proj1 (proj2 (proj2
    (interpret_results_accepts_only status_compiler results self' refs Hi
       (status_row (VStr "1.0")) (or_introl eq_refl))))).
Defined.

(** *** Where a cell goes *)

Lemma built_metrics_wellformed (table_name : string) (columns : list Column) :
  Forall (fun column => Str.contains "__" (name column) = false /\
                        Str.ends_with_char "_" (name column) = false) columns ->
  Forall (fun metric => Str.contains "__" (column_name metric) = false /\
                        Str.ends_with_char "_" (column_name metric) = false)
         (flat_map (column_metrics table_name) columns).
Proof.
  intros Hwf. apply Forall_forall. intros m Hm. apply list_elem_of_In in Hm.
  apply in_flat_map in Hm as (c & Hc & Hm).
  unfold column_metrics in Hm. apply in_map_iff in Hm as (k & <- & _).
  rewrite Forall_forall in Hwf. apply Hwf. now apply list_elem_of_In.
Qed.

Lemma interpret_cell_skip metric_map window_start window_end row store alias :
  Str.contains "__" alias = false ->
  interpret_cell metric_map window_start window_end row store alias = Ok store.
Proof. intros H. unfold interpret_cell. now rewrite H. Qed.

Lemma interpret_row_single metric_map (ws we rc cell : pyval) (a : string)
    (store : list Metric) :
  Str.contains "__" a = true ->
  let row := [("WINDOW_START", ws); ("WINDOW_END", we); ("ROW_COUNT", rc); (a, cell)] in
  Dict.get row a = Some cell /\
  interpret_row metric_map store row = interpret_cell metric_map ws we row store a.
Proof.
  intros Hsep row. split.
  - unfold row. cbn [Dict.get].
    destruct (String.eqb_spec "WINDOW_START" a) as [E|_];
      [rewrite <- E in Hsep; discriminate Hsep|].
    destruct (String.eqb_spec "WINDOW_END" a) as [E|_];
      [rewrite <- E in Hsep; discriminate Hsep|].
    destruct (String.eqb_spec "ROW_COUNT" a) as [E|_];
      [rewrite <- E in Hsep; discriminate Hsep|].
    now rewrite String.eqb_refl.
  - unfold interpret_row.
    change (Dict.getitem row "WINDOW_START") with (Ok ws).
    change (Dict.getitem row "WINDOW_END") with (Ok we).
    change (Dict.getitem row "ROW_COUNT") with (Ok rc).
    change (Dict.keys row) with ["WINDOW_START"; "WINDOW_END"; "ROW_COUNT"; a].
    cbn [mbind result_bind for_each].
    rewrite (interpret_cell_skip metric_map ws we row store "WINDOW_START" eq_refl).
    cbn [mbind result_bind].
    rewrite (interpret_cell_skip metric_map ws we row store "WINDOW_END" eq_refl).
    cbn [mbind result_bind].
    rewrite (interpret_cell_skip metric_map ws we row store "ROW_COUNT" eq_refl).
    cbn [mbind result_bind].
    now destruct (interpret_cell metric_map ws we row store a).
Qed.

(** X16. For a build over columns whose lowercased names are pairwise
    distinct, hold no separator and do not end with an underscore: a row
    that has, beside the reserved keys, one cell under the alias of a
    metric of the build gives its data point to that metric and to no
    other. The point has the float of the cell, or no value when [float]
    rejects the cell with [TypeError]; any other rejection is raised. *)
Theorem interpret_results_routes_cell (self0 : MetricCompiler)
    (monitor : TableMetricsMonitor) (columns : list Column)
    (self : MetricCompiler) (query : string)
    (ref : nat) (metric : Metric) (a : string) (ws we rc cell : pyval) :
  NoDup (map (fun column => Str.lower (name column)) columns) ->
  Forall (fun column => Str.contains "__" (name column) = false /\
                        Str.ends_with_char "_" (name column) = false) columns ->
  build_query self0 monitor columns = Ok (self, query) ->
  metrics self !! ref = Some metric ->
  alias metric = Ok a ->
  interpret_results self
    (mkResults [[("WINDOW_START", ws); ("WINDOW_END", we); ("ROW_COUNT", rc); (a, cell)]])
  = match float cell with
    | Ok f =>
        Ok (mkMetricCompiler
              (alter (append_value (mkMetricDataPoint (VFloat f) ws we)) ref (metrics self)),
            flatten (_metric_map self))
    | Raise TypeError =>
        Ok (mkMetricCompiler
              (alter (append_value (mkMetricDataPoint VNone ws we)) ref (metrics self)),
            flatten (_metric_map self))
    | Raise e => Raise e
    end.
Proof.
  intros Hnd Hwf Hb Href Ha.
  pose proof (build_query_metrics _ _ _ _ _ Hb) as Hms.
  assert (Hkeys : NoDup (map key_of (metrics self))).
  { rewrite Hms. now apply built_keys_NoDup. }
  assert (Hm : Str.contains "__" (column_name metric) = false /\
               Str.ends_with_char "_" (column_name metric) = false).
  { pose proof (built_metrics_wellformed (table monitor) columns Hwf) as H.
    rewrite <- Hms, Forall_forall in H. apply H, list_elem_of_lookup. now exists ref. }
  destruct Hm as [Hc He].
  unfold alias in Ha. rewrite alias_of_eq in Ha.
  assert (Ha' : a = column_name metric +:+ "__" +:+ value_of (metric_type metric))
    by (injection Ha as Ha; symmetry; exact Ha).
  assert (Hsep : Str.contains "__" a = true).
  { rewrite Ha'. apply contains_sep_app. destruct (metric_type metric); reflexivity. }
  assert (Hparse : parse_alias a =
                   Ok (Str.lower (column_name metric), value_of (metric_type metric))).
  { rewrite Ha'. apply (parse_alias_alias_text _ _ Hc He). }
  destruct (_metric_map_lookup self ref metric Hkeys Href) as (inner & Hi1 & Hi2).
  unfold key_of in Hi1, Hi2. cbn [fst snd] in Hi1, Hi2.
  rewrite lower_value_of in Hi2.
  destruct (interpret_row_single (_metric_map self) ws we rc cell a (metrics self) Hsep)
    as [Hget Hrow].
  unfold interpret_results. cbn [rows for_each]. rewrite Hrow.
  unfold interpret_cell. rewrite Hsep, Hparse. cbn [negb mbind result_bind].
  unfold Dict.getitem. rewrite Hi1. cbn [mbind result_bind]. rewrite Hi2.
  cbn [mbind result_bind]. rewrite Hget. cbn [mbind result_bind].
  destruct (float cell) as [f|[]]; reflexivity.
Qed.

Lemma interpret_results_routes_cell_witness :
  exists self',
    interpret_results status_compiler
      (mkResults [[("WINDOW_START", VStr "t0"); ("WINDOW_END", VStr "t1");
                   ("ROW_COUNT", VInt 10); ("status__max_length", VInt 7)]])
    = Ok (self', flatten (_metric_map status_compiler)) /\
    values <$> metrics self' !! 4%nat =
      Some [mkMetricDataPoint (VFloat (Finite 7 0)) (VStr "t0") (VStr "t1")].
Proof.
  eexists. split.
  - exact (interpret_results_routes_cell (mkMetricCompiler []) orders status_columns
             status_compiler status_query 4
             (mkMetric "orders" "status" MAX_LENGTH []) "status__max_length"
             (VStr "t0") (VStr "t1") (VInt 10) (VInt 7)
             ltac:(compute_done) ltac:(repeat constructor) status_build eq_refl eq_refl).
  - reflexivity.
Defined.

(** *** The values of the points *)

Lemma for_each_preserves {S X : Type} (P : S -> Prop) (body : S -> X -> result S)
    (items : list X) :
  (forall s x s', P s -> body s x = Ok s' -> P s') ->
  forall s s', P s -> for_each body items s = Ok s' -> P s'.
Proof.
  intros Hb. induction items as [|x items IH]; intros s s' Hs H.
  - now injection H as <-.
  - cbn [for_each] in H. destruct (body s x) as [s1|e] eqn:E; [|discriminate H].
    cbn [mbind result_bind] in H. eapply IH; [|exact H]. eapply Hb; eauto.
Qed.

Lemma coerce_point_float_or_None (point : MetricDataPoint) :
  float_or_None (value point) = true -> coerce_point point = point.
Proof.
  destruct point as [v ws we]. destruct v; try discriminate; reflexivity.
Qed.

Lemma interpret_rows_values metric_map row_list (store store' : list Metric) :
  Forall (fun metric =>
            Forall (fun point => float_or_None (value point) = true) (values metric)) store ->
  for_each (interpret_row metric_map) row_list store = Ok store' ->
  Forall (fun metric =>
            Forall (fun point => float_or_None (value point) = true) (values metric)) store'.
Proof.
  apply for_each_preserves. clear. intros store row store' Hs H.
  unfold interpret_row in H.
  destruct (Dict.getitem row "WINDOW_START") as [ws|]; [|discriminate H].
  destruct (Dict.getitem row "WINDOW_END") as [we|]; [|discriminate H].
  destruct (Dict.getitem row "ROW_COUNT") as [rc|]; [|discriminate H].
  cbn [mbind result_bind] in H. revert H. apply for_each_preserves; [|exact Hs].
  clear. intros store alias store' Hs H. unfold interpret_cell in H.
  destruct (negb (Str.contains "__" alias)); [now injection H as <-|].
  destruct (parse_alias alias) as [[c k]|]; [|discriminate H].
  cbn [mbind result_bind] in H.
  destruct (Dict.getitem metric_map c) as [inner|]; [|discriminate H].
  cbn [mbind result_bind] in H.
  destruct (Dict.getitem inner k) as [ref|]; [|discriminate H].
  cbn [mbind result_bind] in H.
  destruct (Dict.getitem row alias) as [cell|]; [|discriminate H].
  cbn [mbind result_bind] in H.
  destruct (float cell) as [f|[]]; cbn [mbind result_bind] in H;
    try discriminate H; injection H as <-;
    (apply Forall_alter; [exact Hs|]; intros m _ Hm; cbn [append_value values];
     apply Forall_app; split; [exact Hm | repeat constructor]).
Qed.

(** X17. After a build and a call of [interpret_results] that returns,
    every data point holds a float or no value, so that
    [nonnull_values] leaves each metric as it is and returns exactly its
    points that hold a float. *)
Theorem interpret_results_then_nonnull_values (self0 : MetricCompiler)
    (monitor : TableMetricsMonitor) (columns : list Column)
    (self : MetricCompiler) (query : string) (results : Results)
    (self' : MetricCompiler) (refs : list nat) :
  build_query self0 monitor columns = Ok (self, query) ->
  interpret_results self results = Ok (self', refs) ->
  forall ref metric, metrics self' !! ref = Some metric ->
    Forall (fun point => float_or_None (value point) = true) (values metric) /\
    nonnull_values metric =
      (metric, List.filter (fun point => ne_None (value point)) (values metric)).
Proof.
  intros Hb Hi ref metric Href.
  assert (Hclean : Forall (fun point => float_or_None (value point) = true) (values metric)).
  { unfold interpret_results in Hi.
    destruct (for_each (interpret_row (_metric_map self)) (rows results) (metrics self))
      as [store|e] eqn:E; [|discriminate Hi].
    injection Hi as <- _. cbn [metrics] in Href.
    assert (H : Forall (fun m => Forall (fun point => float_or_None (value point) = true)
                                        (values m)) store).
    { eapply interpret_rows_values; [|exact E].
      eapply Forall_impl; [apply (build_query_values_empty _ _ _ _ _ Hb)|].
      intros m ->. constructor. }
    rewrite Forall_forall in H. apply H, list_elem_of_lookup. now exists ref. }
  split; [exact Hclean|].
  assert (Hid : coerce_points (values metric) = values metric).
  { induction Hclean as [|p l Hp _ IH]; [reflexivity|].
    cbn [coerce_points]. now rewrite (coerce_point_float_or_None p Hp), IH. }
  unfold nonnull_values. cbn [values]. rewrite Hid. now destruct metric.
Qed.

Lemma interpret_results_then_nonnull_values_witness :
  let results := mkResults [status_row (VStr "1.0"); status_row VNone] in
  exists self' refs metric,
    interpret_results status_compiler results = Ok (self', refs) /\
    metrics self' !! 0%nat = Some metric /\
    length (snd (nonnull_values metric)) = 1%nat.
Proof.
  intros results.
  assert (Hi : { p | interpret_results status_compiler results = Ok p })
    by (eexists; vm_compute; reflexivity).
  destruct Hi as [[self' refs] Hi].
  assert (Hm : { m | metrics self' !! 0%nat = Some m }).
  { vm_compute in Hi. injection Hi as <- _. eexists. reflexivity. }
  destruct Hm as [metric Hm]. exists self', refs, metric.
  split; [exact Hi|]. split; [exact Hm|].
  rewrite (proj2 (interpret_results_then_nonnull_values (mkMetricCompiler []) orders
                    status_columns status_compiler status_query results self' refs
                    status_build Hi 0%nat metric Hm)).
  vm_compute in Hi. injection Hi as <- _. vm_compute in Hm. injection Hm as <-.
  reflexivity.
Defined.

(** *** Which metrics are returned *)

Section DictKeys.
Context {V : Type}.
Implicit Types (d : dict V) (k : string) (v : V).

Lemma dict_get_In d k v : Dict.get d k = Some v -> In (k, v) d.
Proof.
  induction d as [|[k' v'] d IH]; simpl; [discriminate|].
  destruct (String.eqb_spec k' k) as [->|_].
  - intros H. injection H as ->. now left.
  - intros H. right. now apply IH.
Qed.

Lemma dict_In_get d k v : NoDup (map fst d) -> In (k, v) d -> Dict.get d k = Some v.
Proof.
  induction d as [|[k' v'] d IH]; intros Hnd H; [contradiction|].
  cbn [map fst] in Hnd. apply NoDup_cons in Hnd as [Hk Hnd]. simpl.
  destruct H as [H|H].
  - injection H as -> ->. now rewrite String.eqb_refl.
  - destruct (String.eqb_spec k' k) as [->|_]; [|now apply IH].
    exfalso. apply Hk, list_elem_of_In, in_map_iff. now exists (k, v).
Qed.

Lemma dict_In_set d k v k' v' :
  In (k', v') (Dict.set d k v) -> (k' = k /\ v' = v) \/ In (k', v') d.
Proof.
  induction d as [|[k0 v0] d IH]; simpl.
  - intros [H|[]]. injection H as -> ->. now left.
  - destruct (String.eqb_spec k0 k) as [->|_]; intros [H|H].
    + injection H as -> ->. now left.
    + right. now right.
    + right. now left.
    + apply IH in H as [H|H]; [now left | right; now right].
Qed.

Lemma dict_set_keys_NoDup d k v : NoDup (map fst d) -> NoDup (map fst (Dict.set d k v)).
Proof.
  induction d as [|[k0 v0] d IH]; intros Hnd; simpl.
  - repeat constructor. intros H. inversion H.
  - cbn [map fst] in Hnd. apply NoDup_cons in Hnd as [Hk Hnd].
    destruct (String.eqb_spec k0 k) as [->|Hne]; cbn [map fst].
    + now apply NoDup_cons.
    + apply NoDup_cons. split; [|now apply IH].
      intros Hin. apply list_elem_of_In, in_map_iff in Hin as ([k1 v1] & E & Hin).
      cbn [fst] in E. subst k1. apply dict_In_set in Hin as [[-> _]|Hin]; [congruence|].
      apply Hk, list_elem_of_In, in_map_iff. now exists (k0, v1).
Qed.

End DictKeys.

Lemma metric_map_step_well_formed metric_map item :
  well_formed metric_map -> well_formed (metric_map_step metric_map item).
Proof.
  destruct item as [ref metric]. intros [Hk Hi]. unfold metric_map_step, Dict.mem.
  set (c0 := Str.lower (column_name metric)).
  set (k0 := Str.lower (value_of (metric_type metric))).
  assert (Hset : forall (mm : dict (dict nat)) inner,
            well_formed mm -> NoDup (map fst inner) -> well_formed (Dict.set mm c0 inner)).
  { intros mm inner [Hk' Hi'] Hin. split; [now apply dict_set_keys_NoDup|].
    intros c inner' H. apply dict_In_set in H as [[_ ->]|H]; [exact Hin | eauto]. }
  destruct (Dict.get metric_map c0) as [inner0|] eqn:E0; cbn [negb].
  - rewrite E0. apply Hset; [now split|].
    apply dict_set_keys_NoDup. apply (Hi c0). now apply dict_get_In.
  - rewrite dict_get_set_eq. apply Hset.
    + apply Hset; [now split | constructor].
    + apply dict_set_keys_NoDup. constructor.
Qed.

Lemma _metric_map_well_formed (self : MetricCompiler) : well_formed (_metric_map self).
Proof.
  unfold _metric_map.
  assert (H : forall items mm, well_formed mm -> well_formed (fold_left metric_map_step items mm)).
  { induction items as [|item items IH]; intros mm Hmm; [exact Hmm|].
    apply IH. now apply metric_map_step_well_formed. }
  apply H. split; [constructor | intros c inner []].
Qed.

Lemma references_has_ref (metric_map : dict (dict nat)) (ref : nat) :
  well_formed metric_map ->
  (In ref (references metric_map) <-> exists key, has_ref metric_map key ref).
Proof.
  intros [Hk Hi]. unfold references, has_ref. split.
  - intros H. apply in_concat in H as (refs & H1 & H2).
    apply in_map_iff in H1 as ([c inner] & <- & Hc). cbn [snd] in H2.
    apply in_map_iff in H2 as ([k r] & E & Hr). cbn [snd] in E. subst r.
    exists (c, k), inner. cbn [fst snd]. split.
    + now apply dict_In_get.
    + apply dict_In_get; [apply (Hi c); exact Hc | exact Hr].
  - intros ([c k] & inner & H1 & H2). cbn [fst snd] in *.
    apply in_concat. exists (map snd inner). split.
    + apply in_map_iff. exists (c, inner). split; [reflexivity | now apply dict_get_In].
    + apply in_map_iff. exists (k, ref). split; [reflexivity | now apply dict_get_In].
Qed.

Lemma has_ref_functional metric_map key r1 r2 :
  has_ref metric_map key r1 -> has_ref metric_map key r2 -> r1 = r2.
Proof. intros (i1 & H1 & H1') (i2 & H2 & H2'). congruence. Qed.

Lemma combine_app_eq_length {A B : Type} (l1 l2 : list A) (k1 k2 : list B) :
  length l1 = length k1 ->
  combine (l1 ++ l2) (k1 ++ k2) = combine l1 k1 ++ combine l2 k2.
Proof.
  revert k1. induction l1 as [|a l1 IH]; intros [|b k1] H; try discriminate H.
  - reflexivity.
  - simpl. f_equal. apply IH. now injection H.
Qed.

Lemma enumerate_snoc {A : Type} (l : list A) (x : A) :
  enumerate (l ++ [x]) = enumerate l ++ [(length l, x)].
Proof.
  unfold enumerate. rewrite length_app, Nat.add_1_r, seq_S. cbn [Nat.add].
  rewrite combine_app_eq_length by apply length_seq. reflexivity.
Qed.

Lemma last_with_snoc (l : list Metric) (m : Metric) key ref :
  last_with (l ++ [m]) key ref <->
  (key_of m = key /\ ref = length l) \/ (key_of m <> key /\ last_with l key ref).
Proof.
  unfold last_with. split.
  - intros (metric & H & Hkey & Hlast).
    apply lookup_snoc_Some in H as [[Hlt H]|[-> ->]]; [|now left].
    right. split.
    + intros Hm. specialize (Hlast (length l) m).
      rewrite list_lookup_middle in Hlast by reflexivity.
      specialize (Hlast eq_refl Hm). lia.
    + exists metric. split; [exact H|]. split; [exact Hkey|].
      intros r' m' H' Hk'. apply (Hlast r' m'); [|exact Hk'].
      apply lookup_snoc_Some. left. split; [|exact H']. now apply lookup_lt_Some in H'.
  - intros [[Hkey ->]|[Hne (metric & H & Hkey & Hlast)]].
    + exists m. split; [now apply list_lookup_middle|]. split; [exact Hkey|].
      intros r' m' H' _. apply lookup_lt_Some in H'. rewrite length_app in H'. simpl in H'. lia.
    + exists metric. split; [|split; [exact Hkey|]].
      * apply lookup_snoc_Some. left. split; [|exact H]. now apply lookup_lt_Some in H.
      * intros r' m' H' Hk'. apply lookup_snoc_Some in H' as [[_ H'] | [-> <-]].
        -- now apply (Hlast r' m').
        -- contradiction.
Qed.

Lemma _metric_map_last_with (l : list Metric) key ref :
  has_ref (_metric_map (mkMetricCompiler l)) key ref <-> last_with l key ref.
Proof.
  unfold _metric_map. cbn [metrics]. revert key ref.
  induction l as [|m l IH] using rev_ind; intros key ref.
  - split.
    + intros (inner & H & _). discriminate H.
    + intros (metric & H & _). discriminate H.
  - rewrite enumerate_snoc, fold_left_app. cbn [fold_left].
    rewrite last_with_snoc, <- IH. split.
    + intros H. destruct (decide (key_of m = key)) as [Hk|Hk].
      * left. split; [exact Hk|]. subst key.
        exact (has_ref_functional _ _ _ _ H (metric_map_step_same _ _ _)).
      * right. split; [exact Hk|].
        apply metric_map_step_refs in H as [[-> _]|H]; [contradiction | exact H].
    + intros [[<- ->]|[Hk H]].
      * apply metric_map_step_same.
      * apply metric_map_step_other; [congruence | exact H].
Qed.

(** X18. [interpret_results] returns a metric exactly when no later
    metric of the compiler has the same lowercased column name and the
    same kind: of several metrics filed under one key, only the last is
    returned. *)
Theorem interpret_results_returns_last_of_key (self : MetricCompiler) (results : Results)
    (self' : MetricCompiler) (refs : list nat) :
  interpret_results self results = Ok (self', refs) ->
  forall ref,
    In ref refs <->
    exists metric,
      metrics self !! ref = Some metric /\
      forall ref' metric',
        metrics self !! ref' = Some metric' ->
        key_of metric' = key_of metric -> ref' <= ref.
Proof.
  intros Hi ref. destruct (interpret_results_appends _ _ _ _ Hi) as (-> & _).
  rewrite flatten_references, (references_has_ref _ _ (_metric_map_well_formed self)).
  destruct self as [l]. cbn [metrics]. split.
  - intros (key & H). apply _metric_map_last_with in H as (metric & H & <- & Hlast). eauto.
  - intros (metric & H & Hlast). exists (key_of metric).
    apply _metric_map_last_with. exists metric. auto.
Qed.

Lemma interpret_results_returns_last_of_key_witness :
  let self := mkMetricCompiler [mkMetric "t" "A" COMPLETENESS []; mkMetric "t" "a" COMPLETENESS []] in
  exists self' refs,
    interpret_results self (mkResults []) = Ok (self', refs) /\
    (In 0%nat refs <->
     exists metric,
       metrics self !! 0%nat = Some metric /\
       forall ref' metric',
         metrics self !! ref' = Some metric' ->
         key_of metric' = key_of metric -> ref' <= 0).
Proof.
  intros self. eexists _, _. split; [reflexivity|].
  apply (interpret_results_returns_last_of_key self (mkResults []) _ _ eq_refl).
Defined.

(** ** interpret_results, called twice *)

Lemma total_points_empty (store : list Metric) :
  Forall (fun metric => values metric = []) store -> total_points store = 0.
Proof.
  unfold total_points. induction 1 as [|m store Hm _ IH]; [reflexivity|].
  cbn [map list_sum fold_right]. change (fold_right Nat.add 0 ?l) with (list_sum l).
  now rewrite Hm, IH.
Qed.

(** C8. [interpret_results] is not idempotent. On a compiler left by
    [build_query], a first call that returns has appended one data point
    for each cell of the rows under a key with the separator; a second
    call on the same rows returns too, gives the same metrics, and
    appends the same points again: every metric then holds the points of
    the first call twice, its value sequence is twice as long, the
    compiler holds twice as many points in all, and, as soon as the rows
    have one such cell, the compiler after the second call differs from
    the compiler after the first. *)
Theorem interpret_results_twice_doubles (self0 : MetricCompiler)
    (monitor : TableMetricsMonitor) (columns : list Column)
    (self : MetricCompiler) (query : string) (results : Results)
    (self1 : MetricCompiler) (refs1 : list nat) :
  build_query self0 monitor columns = Ok (self, query) ->
  interpret_results self results = Ok (self1, refs1) ->
  exists self2,
    interpret_results self1 results = Ok (self2, refs1) /\
    length (metrics self2) = length (metrics self1) /\
    total_points (metrics self1) = metric_cells results /\
    total_points (metrics self2) = (2 * metric_cells results)%nat /\
    (0 < metric_cells results -> self2 <> self1) /\
    forall ref metric1, metrics self1 !! ref = Some metric1 ->
      exists metric2,
        metrics self2 !! ref = Some metric2 /\
        identity_of metric2 = identity_of metric1 /\
        values metric2 = values metric1 ++ values metric1 /\
        length (values metric2) = (2 * length (values metric1))%nat.
Proof.
  intros Hb Hi.
  pose proof (build_query_values_empty _ _ _ _ _ Hb) as Hempty.
  destruct (interpret_results_appends _ _ _ _ Hi) as (Hrefs & appends & Hst & Hrun).
  assert (Hmap : _metric_map self1 = _metric_map self).
  { apply _metric_map_identity. rewrite Hst. apply apply_appends_identity. }
  assert (Hlen : length (metrics self1) = length (metrics self)).
  { rewrite Hst. apply apply_appends_length. }
  assert (Hcount : forall store,
            length store = length (metrics self) ->
            total_points (apply_appends appends store)
            = total_points store + metric_cells results).
  { intros store Hs. destruct results as [row_list]. cbn [rows] in Hrun.
    apply (interpret_rows_count (_metric_map self) (length (metrics self))
             (_metric_map_refs_bounded self) row_list store _ Hs (Hrun store)). }
  assert (H1 : total_points (metrics self1) = metric_cells results).
  { rewrite Hst, (Hcount _ eq_refl), (total_points_empty _ Hempty). reflexivity. }
  assert (H2 : total_points (apply_appends appends (metrics self1))
               = (2 * metric_cells results)%nat).
  { rewrite (Hcount _ Hlen), H1. lia. }
  exists (mkMetricCompiler (apply_appends appends (metrics self1))).
  split; [|split; [|split; [exact H1|split; [exact H2|split]]]].
  - unfold interpret_results. rewrite Hmap, Hrun, Hrefs. reflexivity.
  - cbn [metrics]. apply apply_appends_length.
  - intros Hpos Heq. rewrite <- Heq in H1. cbn [metrics] in H1. lia.
  - intros ref metric1 Hm1. cbn [metrics].
    destruct (apply_appends_lookup appends _ ref metric1 Hm1) as (metric2 & Hm2 & Hid & Hv).
    exists metric2. split; [exact Hm2|]. split; [exact Hid|].
    assert (Hpts : values metric1 = points_for ref appends).
    { assert (is_Some (metrics self !! ref)) as [metric0 H0].
      { apply lookup_lt_is_Some. apply lookup_lt_Some in Hm1. now rewrite Hlen in Hm1. }
      destruct (apply_appends_lookup appends _ ref metric0 H0) as (m & Hm & _ & Hvm).
      rewrite <- Hst, Hm1 in Hm. injection Hm as <-.
      rewrite Hvm. rewrite Forall_forall in Hempty.
      rewrite (Hempty metric0); [reflexivity|].
      apply list_elem_of_lookup. now exists ref. }
    rewrite Hv, <- Hpts. split; [reflexivity|]. rewrite length_app. lia.
Qed.

Lemma interpret_results_twice_doubles_witness :
  let results := mkResults [status_row (VStr "1.0"); status_row VNone] in
  exists self1 refs self2,
    interpret_results status_compiler results = Ok (self1, refs) /\
    interpret_results self1 results = Ok (self2, refs) /\
    total_points (metrics self1) = 2 /\
    total_points (metrics self2) = 4 /\
    self2 <> self1.
Proof.
  intros results.
  assert (Hi : { p | interpret_results status_compiler results = Ok p })
    by (eexists; vm_compute; reflexivity).
  destruct Hi as [[self1 refs] Hi].
  destruct (interpret_results_twice_doubles (mkMetricCompiler []) orders status_columns
              status_compiler status_query results self1 refs status_build Hi)
    as (self2 & H2 & _ & Ht1 & Ht2 & Hne & _).
  exists self1, refs, self2.
  split; [exact Hi|]. split; [exact H2|]. split; [exact Ht1|]. split; [exact Ht2|].
  apply Hne. vm_compute. lia.
Defined.
